(** * devpulse-client: the captcha task (core/captcha/captcha_task.py)

    A shallow embedding of [CaptchaTask] and of the Python run-time services
    it calls, followed by the properties of the scheduler ([tick]), of one
    challenge run ([_captcha_challenge_coroutine]), of the event record
    ([_log_captcha_event]) and of pickling ([__getstate__]).

    Layout:
    - [PyFloat]: binary64 arithmetic as CPython performs it (true division of
      integers, float times int, [int()] of a float, float compared with int);
    - [PyText]: [str()] of an integer and [eval] of the generated expression;
    - [Challenge]: one challenge run, as a state-and-exception monad over the
      collaborators (random source, wall clock, dialog processes, event store);
    - [Scheduler]: the task object, the background thread, the event loop and
      the scheduled future, as a transition system driven by [tick]. *)

From Stdlib Require Import ZArith Lia Bool List Ascii String.
From Stdlib Require Import Floats.SpecFloat DecimalString DecimalZ.
From stdpp Require Import gmap strings.

Open Scope Z_scope.

(** ** Binary64 floats, as Python's [float] *)

Module PyFloat.

Definition prec : Z := 53.
Definition emax : Z := 1024.

Abbreviation float := spec_float.

(** An integer as an exact (unrounded) operand of a correctly rounded
    operation. *)
Definition exact_int (n : Z) : float :=
  match n with
  | Z0 => S754_zero false
  | Zpos p => S754_finite false p 0
  | Zneg p => S754_finite true p 0
  end.

(** [float(n)]: the integer rounded to the nearest binary64 value. *)
Definition of_int (n : Z) : float := binary_normalize prec emax n 0 false.

(** [a / b] on Python integers: the correctly rounded quotient. *)
Definition int_truediv (a b : Z) : float :=
  SFdiv prec emax (exact_int a) (exact_int b).

(** [x * n] with [x] a float and [n] an int: [n] is converted first. *)
Definition mul_int (x : float) (n : Z) : float :=
  SFmul prec emax x (of_int n).

(** [x - y] on floats. *)
Definition sub (x y : float) : float := SFsub prec emax x y.

(** [int(x)]: truncation toward zero; [None] where Python raises. *)
Definition to_int (x : float) : option Z :=
  match x with
  | S754_zero _ => Some 0
  | S754_finite s m e =>
      let mag := if 0 <=? e then Z.shiftl (Zpos m) e
                 else Z.shiftr (Zpos m) (- e) in
      Some (if s then - mag else mag)
  | S754_infinity _ | S754_nan => None
  end.

(** [x >= n] with [x] a float and [n] an int: CPython compares the two
    exactly; every comparison with NaN is false. *)
Definition ge_int (x : float) (n : Z) : bool :=
  match x with
  | S754_nan => false
  | S754_infinity s => negb s
  | S754_zero _ => n <=? 0
  | S754_finite s m e =>
      let sm := if s then Zneg m else Zpos m in
      if 0 <=? e then n <=? Z.shiftl sm e
      else Z.shiftl n (- e) <=? sm
  end.


End PyFloat.

(** ** Text: [str(int)] and [eval] of a two-operand expression *)

Module PyText.

(** [str(n)] for an integer. *)
Definition str (n : Z) : string := NilZero.string_of_int (Z.to_int n).

Definition is_digit (c : ascii) : bool :=
  let n := nat_of_ascii c in (48 <=? n)%nat && (n <=? 57)%nat.

Definition is_space (c : ascii) : bool :=
  let n := nat_of_ascii c in
  (n =? 32)%nat || (n =? 9)%nat || (n =? 12)%nat.

Fixpoint span_digits (s : string) : string * string :=
  match s with
  | EmptyString => (EmptyString, EmptyString)
  | String c r =>
      if is_digit c
      then let '(d, r') := span_digits r in (String c d, r')
      else (EmptyString, s)
  end.

Fixpoint skip_spaces (s : string) : string :=
  match s with
  | EmptyString => EmptyString
  | String c r => if is_space c then skip_spaces r else s
  end.

(** A decimal integer literal: a maximal run of digits; a literal with a
    leading zero other than zero itself is a syntax error. *)
Definition lex_number (s : string) : option (Z * string) :=
  let '(d, r) := span_digits s in
  match d with
  | EmptyString => None
  | String c d' =>
      if Ascii.eqb c "0"%char
         && negb (forallb (Ascii.eqb "0"%char) (list_ascii_of_string d'))
      then None
      else match NilZero.uint_of_string d with
           | Some u => Some (Z.of_uint u, r)
           | None => None
           end
  end.

(** [eval(expr)] on the fragment the generator produces: one integer
    literal, or two of them around a binary [+] or [-].  [None] stands for
    an exception (SyntaxError) or for text outside that fragment. *)
Definition eval (expr : string) : option Z :=
  match lex_number (skip_spaces expr) with
  | None => None
  | Some (a, r1) =>
      match skip_spaces r1 with
      | EmptyString => Some a
      | String op r2 =>
          match lex_number (skip_spaces r2) with
          | None => None
          | Some (b, r3) =>
              match skip_spaces r3 with
              | EmptyString =>
                  if Ascii.eqb op "+"%char then Some (a + b)
                  else if Ascii.eqb op "-"%char then Some (a - b)
                  else None
              | String _ _ => None
              end
          end
      end
  end.

End PyText.

(** ** The task object *)

(** Handles of the asyncio and threading run time. *)
Definition loop_id := nat.
Definition future_id := nat.
Definition thread_id := nat.

(** The instance attributes of [CaptchaTask], as [__init__] creates them.
    [_loop_attr] is the attribute behind the [_loop] property. *)
Record CaptchaTask := {
  interval : Z;
  info_timeout : Z;
  _last_challenge : option PyFloat.float;
  _running : bool;
  _loop_attr : option loop_id;
  _task : option future_id;
  _captcha_thread : option thread_id
}.

(** [CaptchaTask.__init__(interval, info_timeout)]. *)
Definition __init__ (interval info_timeout : Z) : CaptchaTask :=
  {| interval := interval;
     info_timeout := info_timeout;
     _last_challenge := None;
     _running := false;
     _loop_attr := None;
     _task := None;
     _captcha_thread := None |}.

(** The [_loop] property: getter and setter. *)
Definition _loop (self : CaptchaTask) : option loop_id := _loop_attr self.

Definition set__loop (value : option loop_id) (self : CaptchaTask) : CaptchaTask :=
  {| interval := interval self;
     info_timeout := info_timeout self;
     _last_challenge := _last_challenge self;
     _running := _running self;
     _loop_attr := value;
     _task := _task self;
     _captcha_thread := _captcha_thread self |}.

(** ** One challenge run *)

Module Challenge.

Import PyFloat.

(** A naive [datetime], as its count of microseconds on the local
    wall-clock time line; the difference of two of them is a [timedelta],
    again a count of microseconds. *)
Definition datetime := Z.
Definition timedelta := Z.

(** [timedelta.total_seconds()]: the microseconds divided by [10**6]. *)
Definition total_seconds (td : timedelta) : float :=
  int_truediv td 1000000.

(** The exceptions a run can meet.  [CancelledError] is the one asyncio
    raises inside a coroutine whose task is cancelled, as [stop] does with
    [_task.cancel()]; it derives from BaseException, not from Exception. *)
Inductive exn :=
| ValueError
| OverflowError
| SyntaxError
| OSError
| CancelledError.

Definition is_ValueError (e : exn) : bool :=
  match e with ValueError => true | _ => false end.

(** What [except Exception] catches. *)
Definition is_Exception (e : exn) : bool :=
  match e with CancelledError => false | _ => true end.

(** Values stored in the event mapping. *)
Inductive value :=
| VStr (s : string)
| VInt (n : Z)
| VBool (b : bool)
| VDatetime (t : datetime).

(** What happens while a run waits for one dialog process: the invocation
    raises, or the process exits with a status and what it wrote on its
    standard output, or the task of the run is cancelled during the wait. *)
Inductive proc_result :=
| ProcRaises
| ProcExit (returncode : Z) (stdout : string)
| ProcCancelled.

(** What a run does to the outside. *)
Inductive effect :=
| Exec (argv : list string)
| EventStorePush (event_data : gmap string value)
| PrintError (e : exn).

(** The collaborators: the raw output of the random generator, the wall
    clock, the dialog processes, the configured user, and the trace of
    what has been done so far. *)
Record World := {
  rand_src : nat -> nat;
  rand_pos : nat;
  clock : nat -> datetime;
  clock_pos : nat;
  procs : nat -> proc_result;
  procs_pos : nat;
  tracker_user : string;
  trace : list effect
}.

Inductive result (A : Type) :=
| Ok (a : A)
| Raise (e : exn).
Arguments Ok {A} a.
Arguments Raise {A} e.

Definition M (A : Type) : Type := World -> result A * World.

#[global] Instance M_ret : MRet M := fun A a w => (Ok a, w).

#[global] Instance M_bind : MBind M := fun A B f m w =>
  match m w with
  | (Ok a, w') => f a w'
  | (Raise e, w') => (Raise e, w')
  end.

Definition raise {A} (e : exn) : M A := fun w => (Raise e, w).

(** [try: body except <handles>: handler]. *)
Definition try_except {A} (body : M A) (handles : exn -> bool)
    (handler : exn -> M A) : M A := fun w =>
  match body w with
  | (Ok a, w') => (Ok a, w')
  | (Raise e, w') => if handles e then handler e w' else (Raise e, w')
  end.

Definition emit (e : effect) : M unit := fun w =>
  (Ok tt,
   {| rand_src := rand_src w; rand_pos := rand_pos w;
      clock := clock w; clock_pos := clock_pos w;
      procs := procs w; procs_pos := procs_pos w;
      tracker_user := tracker_user w;
      trace := trace w ++ [e] |}).

(** The generator's primitive: an integer in [[0, n)]. *)
Definition _randbelow (n : nat) : M nat := fun w =>
  (Ok (rand_src w (rand_pos w) `mod` n)%nat,
   {| rand_src := rand_src w; rand_pos := S (rand_pos w);
      clock := clock w; clock_pos := clock_pos w;
      procs := procs w; procs_pos := procs_pos w;
      tracker_user := tracker_user w;
      trace := trace w |}).

(** [random.randint(a, b)] is [a + _randbelow(b - a + 1)]. *)
Definition randint (a b : Z) : M Z :=
  k ← _randbelow (Z.to_nat (b - a + 1)); mret (a + Z.of_nat k).

(** [random.choice(seq)] is [seq[_randbelow(len(seq))]], on a sequence
    that is not empty. *)
Definition choice {A} (x : A) (xs : list A) : M A :=
  i ← _randbelow (length (x :: xs)); mret (nth i (x :: xs) x).

(** [datetime.now()]. *)
Definition datetime_now : M datetime := fun w =>
  (Ok (clock w (clock_pos w)),
   {| rand_src := rand_src w; rand_pos := rand_pos w;
      clock := clock w; clock_pos := S (clock_pos w);
      procs := procs w; procs_pos := procs_pos w;
      tracker_user := tracker_user w;
      trace := trace w |}).

(** [asyncio.create_subprocess_exec] on the words of [argv], followed by
    [proc.communicate()]: the pair of [proc.returncode] and the captured
    standard output. *)
Definition run_process (argv : list string) : M (Z * string) := fun w =>
  let w' :=
    {| rand_src := rand_src w; rand_pos := rand_pos w;
       clock := clock w; clock_pos := clock_pos w;
       procs := procs w; procs_pos := S (procs_pos w);
       tracker_user := tracker_user w;
       trace := trace w ++ [Exec argv] |} in
  match procs w (procs_pos w) with
  | ProcRaises => (Raise OSError, w')
  | ProcCancelled => (Raise CancelledError, w')
  | ProcExit returncode stdout => (Ok (returncode, stdout), w')
  end.

(** [tracker_settings.user], read when called. *)
Definition tracker_settings_user : M string := fun w =>
  (Ok (tracker_user w), w).

(** [EventStore._push(event_data)]; the store is taken to accept the
    mapping and return. *)
Definition EventStore_push (event_data : gmap string value) : M unit :=
  emit (EventStorePush event_data).

(** [print(f"Captcha challenge error: {e}")]. *)
Definition print_error (e : exn) : M unit := emit (PrintError e).

(** [int(x)] on a float: ValueError on NaN, OverflowError on an
    infinity. *)
Definition int_error (x : float) : exn :=
  match x with S754_nan => ValueError | _ => OverflowError end.

Definition int_of_float (x : float) : M Z :=
  match to_int x with
  | Some n => mret n
  | None => raise (int_error x)
  end.

(** [eval(expr)]. *)
Definition eval (expr : string) : M Z :=
  match PyText.eval expr with
  | Some n => mret n
  | None => raise SyntaxError
  end.

(** [shlex.split(cmd)] on commands without backslash or double quote:
    words are separated by blanks, and single quotes group. *)
Fixpoint shlex_go (s : string) (quoted : bool) (cur : option string)
    : list string :=
  let push c := Some (match cur with
                      | Some t => t +:+ String c EmptyString
                      | None => String c EmptyString
                      end) in
  let flush := match cur with Some t => [t] | None => [] end in
  match s with
  | EmptyString => flush
  | String c r =>
      if Ascii.eqb c "'"%char then
        shlex_go r (negb quoted)
          (Some (match cur with Some t => t | None => EmptyString end))
      else if quoted then shlex_go r quoted (push c)
      else if PyText.is_space c || Ascii.eqb c "010"%char
      then flush ++ shlex_go r quoted None
      else shlex_go r quoted (push c)
  end.

Definition shlex_split (cmd : string) : list string :=
  shlex_go cmd false None.

(** The command lines of the four dialogs, as the f-strings build them. *)
Definition math_cmd (expression : string) : string :=
  "zenity --entry --title='Math Challenge' --text='Solve: "
  +:+ expression +:+ " = ?'".

Definition success_cmd (info_timeout : Z) : string :=
  "zenity --info --timeout=" +:+ PyText.str info_timeout
  +:+ " --text='Correct! Next challenge soon.'".

Definition error_cmd : string :=
  "zenity --warning --text='Incorrect! Try again.'".

Definition invalid_input_cmd : string :=
  "zenity --error --title='Invalid Input' --text='Please enter a valid integer.'".

(** The mapping literal of [_log_captcha_event], with [username] standing
    for [tracker_settings.user]. *)
Definition event_dict (username expression : string)
    (user_answer correct_answer : Z) (is_correct : bool)
    (creation_time answer_time : datetime) (response_time_ms : Z)
    : gmap string value :=
  list_to_map
    [ ("username", VStr username);
      ("timestamp", VDatetime creation_time);
      ("event", VStr "captcha_challenge");
      ("expression", VStr expression);
      ("user_answer", VInt user_answer);
      ("correct_answer", VInt correct_answer);
      ("is_correct", VBool is_correct);
      ("creation_time", VDatetime creation_time);
      ("answer_time", VDatetime answer_time);
      ("response_time_ms", VInt response_time_ms) ].

(** *** The methods of one run *)

Section Run.

(** [int(stdout.decode().strip())] of the prompt's output: [Some n] when
    the text is an integer literal, [None] when decoding or parsing
    raises ValueError. *)
Variable int_of_text : string -> option Z.

Definition int_of_stdout (stdout : string) : M Z :=
  match int_of_text stdout with
  | Some n => mret n
  | None => raise ValueError
  end.

(** Lines 103 to 107: the operands, the operator, the expression and its
    value. *)
Definition generate_problem : M (Z * string * Z * string * Z) :=
  a ← randint 1 20;
  b ← randint 1 20;
  op ← choice "+" ["-"];
  let expr := PyText.str a +:+ " " +:+ op +:+ " " +:+ PyText.str b in
  correct_answer ← eval expr;
  mret (a, op, b, expr, correct_answer).

Definition _show_invalid_input_dialog_async (self : CaptchaTask) : M unit :=
  let cmd := invalid_input_cmd in
  try_except
    (_ ← run_process (shlex_split cmd); mret tt)
    is_Exception (fun _ => mret tt).

Definition _show_success_dialog_async (self : CaptchaTask) : M unit :=
  let cmd := success_cmd (info_timeout self) in
  try_except
    (_ ← run_process (shlex_split cmd); mret tt)
    is_Exception (fun _ => mret tt).

Definition _show_error_dialog_async (self : CaptchaTask) : M unit :=
  let cmd := error_cmd in
  try_except
    (_ ← run_process (shlex_split cmd); mret tt)
    is_Exception (fun _ => mret tt).

Definition _show_math_dialog_async (self : CaptchaTask)
    (expression : string) : M (option Z) :=
  let cmd := math_cmd expression in
  try_except
    ('(returncode, stdout) ← run_process (shlex_split cmd);
     if negb (returncode =? 0) then mret None
     else
       try_except
         (n ← int_of_stdout stdout; mret (Some n))
         is_ValueError
         (fun _ => _ ← _show_invalid_input_dialog_async self; mret None))
    is_Exception (fun _ => mret None).

Definition _log_captcha_event (self : CaptchaTask) (expression : string)
    (user_answer correct_answer : Z) (is_correct : bool)
    (creation_time answer_time : datetime) (response_time_ms : Z)
    : M unit :=
  username ← tracker_settings_user;
  let event_data :=
    event_dict username expression user_answer correct_answer is_correct
      creation_time answer_time response_time_ms in
  EventStore_push event_data.

Definition _captcha_challenge_coroutine (self : CaptchaTask) : M unit :=
  try_except
    ('(a, op, b, expr, correct_answer) ← generate_problem;
     creation_time ← datetime_now;
     user_answer ← _show_math_dialog_async self expr;
     match user_answer with
     | None => mret tt
     | Some user_answer =>
         answer_time ← datetime_now;
         response_time_ms ←
           int_of_float
             (mul_int (total_seconds (answer_time - creation_time)) 1000);
         let is_correct := user_answer =? correct_answer in
         _ ← _log_captcha_event self expr user_answer correct_answer
               is_correct creation_time answer_time response_time_ms;
         if is_correct
         then _show_success_dialog_async self
         else _show_error_dialog_async self
     end)
    is_Exception (fun e => print_error e).

End Run.

(** *** A reading of [int(text)] for ASCII text

    Surrounding blanks are dropped, one sign is allowed, and the rest must
    be decimal digits. *)

Fixpoint rstrip (s : string) : string :=
  match s with
  | EmptyString => EmptyString
  | String c r =>
      match rstrip r with
      | EmptyString =>
          if PyText.is_space c || Ascii.eqb c "010"%char
             || Ascii.eqb c "013"%char
          then EmptyString else String c EmptyString
      | r' => String c r'
      end
  end.

Fixpoint lstrip (s : string) : string :=
  match s with
  | EmptyString => EmptyString
  | String c r =>
      if PyText.is_space c || Ascii.eqb c "010"%char || Ascii.eqb c "013"%char
      then lstrip r else s
  end.

Definition digits_value (s : string) : option Z :=
  match s with
  | EmptyString => None
  | _ =>
      if forallb PyText.is_digit (list_ascii_of_string s)
      then match NilZero.uint_of_string s with
           | Some u => Some (Z.of_uint u)
           | None => None
           end
      else None
  end.

Definition ascii_int (text : string) : option Z :=
  match lstrip (rstrip text) with
  | String c r =>
      if Ascii.eqb c "-"%char then
        match digits_value r with Some n => Some (- n) | None => None end
      else if Ascii.eqb c "+"%char then digits_value r
      else digits_value (String c r)
  | EmptyString => None
  end.

(** A world given by the three draws, the two clock readings, the answers
    of the dialog processes and the configured user. *)
Definition world (draws : list nat) (times : list datetime)
    (dialogs : list proc_result) (user : string) : World :=
  {| rand_src := fun i => nth i draws 0%nat;
     rand_pos := 0;
     clock := fun i => nth i times 0;
     clock_pos := 0;
     procs := fun i => nth i dialogs ProcRaises;
     procs_pos := 0;
     tracker_user := user;
     trace := [] |}.


Definition world_wrong : World :=
  world [11; 7; 1]%nat [1000; 2500000]
    [ProcExit 0 "20"; ProcExit 0 ""] "alice".

Definition world_cancelled : World :=
  world [11; 7; 1]%nat [1000; 2500000] [ProcExit 1 ""] "alice".

Definition world_invalid : World :=
  world [11; 7; 0]%nat [1000; 2500000]
    [ProcExit 0 "abc"; ProcExit 0 ""] "alice".

Definition world_negative : World :=
  world [0; 19; 1]%nat [1000; 2500000]
    [ProcExit 0 "-19"; ProcExit 0 ""] "alice".



(** *** Vocabulary of the statements *)

(** The world after [n] more draws, and after [n] more clock readings. *)
Definition skip_draws (n : nat) (w : World) : World :=
  {| rand_src := rand_src w; rand_pos := n + rand_pos w;
     clock := clock w; clock_pos := clock_pos w;
     procs := procs w; procs_pos := procs_pos w;
     tracker_user := tracker_user w;
     trace := trace w |}.

(** The world after one more dialog process, [e] being its invocation. *)
Definition after_dialog (e : effect) (w : World) : World :=
  {| rand_src := rand_src w; rand_pos := rand_pos w;
     clock := clock w; clock_pos := clock_pos w;
     procs := procs w; procs_pos := S (procs_pos w);
     tracker_user := tracker_user w;
     trace := trace w ++ [e] |}.

(** The operand, and the operator, that a raw draw selects. *)
Definition operand (r : nat) : Z := 1 + Z.of_nat (r `mod` 20).

Definition operator (r : nat) : string := nth (r `mod` 2) ["+"; "-"] "+".

(** The text [f"{a} {op} {b}"]. *)
Definition expression_of (a : Z) (op : string) (b : Z) : string :=
  PyText.str a +:+ " " +:+ op +:+ " " +:+ PyText.str b.

(** Exact arithmetic on the operands. *)
Definition apply_operator (op : string) (a b : Z) : Z :=
  if String.eqb op "+" then a + b else a - b.

(** The three draws a run starts with. *)
Definition draw (w : World) (i : nat) : nat := rand_src w (i + rand_pos w).

Definition drawn_expression (w : World) : string :=
  expression_of (operand (draw w 0)) (operator (draw w 2)) (operand (draw w 1)).

Definition drawn_answer (w : World) : Z :=
  apply_operator (operator (draw w 2)) (operand (draw w 0)) (operand (draw w 1)).

(** The equiprobable elementary outcomes of the three calls of
    [_randbelow]: 20 by 20 by 2. *)
Definition sample_space : list (nat * nat * nat) :=
  i ← seq 0 20; j ← seq 0 20; k ← seq 0 2; [(i, j, k)].

Definition challenge_of (d : nat * nat * nat) : Z * string * Z :=
  let '(i, j, k) := d in (operand i, operator k, operand j).

Definition eval_checks (d : nat * nat * nat) : bool :=
  let '(a, op, b) := challenge_of d in
  match PyText.eval (expression_of a op b) with
  | Some v => v =? apply_operator op a b
  | None => false
  end.

(** What a run adds to the trace. *)
Definition effects_of {A} (m : M A) (w : World) : list effect :=
  drop (length (trace w)) (trace (snd (m w))).

(** The word lists of the four dialogs. *)
Definition prompt (expression : string) : effect :=
  Exec (shlex_split (math_cmd expression)).

Definition success_notice (self : CaptchaTask) : effect :=
  Exec (shlex_split (success_cmd (info_timeout self))).

Definition warning_notice : effect := Exec (shlex_split error_cmd).

Definition invalid_input_notice : effect :=
  Exec (shlex_split invalid_input_cmd).

(** [response_time_ms] of line 121, with [None] where [int()] raises. *)
Definition response_time_ms (creation_time answer_time : datetime)
    : option Z :=
  to_int (mul_int (total_seconds (answer_time - creation_time)) 1000).

(** How the wait for the next dialog ends in a method that ignores the
    failures of the dialog: with [a], or with the cancellation. *)
Definition wait_result {A} (a : A) (w : World) : result A :=
  match procs w (procs_pos w) with
  | ProcCancelled => Raise CancelledError
  | _ => Ok a
  end.

(** The same for the second dialog of a run that starts in [w]. *)
Definition second_wait (w : World) : result unit :=
  match procs w (S (procs_pos w)) with
  | ProcCancelled => Raise CancelledError
  | _ => Ok tt
  end.

(** The effects that are pushes, and those that are dialogs. *)
Definition is_push (e : effect) : bool :=
  match e with EventStorePush _ => true | _ => false end.

Definition is_dialog (e : effect) : bool :=
  match e with Exec _ => true | _ => false end.



End Challenge.

(** ** The scheduler and its background execution *)

Module Scheduler.

Import PyFloat.

(** A thread created by [_run_captcha_challenge_async]: [start()] has been
    called on it; then its target has stored its event loop in [_loop] and
    runs the challenge; then the challenge is over and the loop closed.
    The loop of thread [t] is loop [t]. *)
Inductive thread_state :=
| ThreadStarted
| ThreadRunning
| ThreadFinished.

(** A future returned by [asyncio.run_coroutine_threadsafe]: handed to a
    loop; its coroutine running on that loop; finished; cancelled. *)
Inductive future_state :=
| FuturePending (loop : loop_id)
| FutureRunning (loop : loop_id)
| FutureFinished
| FutureCancelled.

(** The run time: every thread and future created so far, by handle, and
    the number of calls of [_run_captcha_challenge_async] so far (a ghost
    counter: the call itself leaves no other mark when line 94 finds the
    previous future unfinished). *)
Record Runtime := {
  threads : list thread_state;
  futures : list future_state;
  triggers : nat
}.

Record System := {
  self : CaptchaTask;
  rt : Runtime
}.

(** [future.done()]. *)
Definition done (r : Runtime) (f : future_id) : bool :=
  match futures r !! f with
  | Some FutureFinished | Some FutureCancelled => true
  | _ => false
  end.

(** [thread.is_alive()]. *)
Definition is_alive (r : Runtime) (t : thread_id) : bool :=
  match threads r !! t with
  | Some ThreadStarted | Some ThreadRunning => true
  | _ => false
  end.

Definition with_self (f : CaptchaTask -> CaptchaTask) (s : System) : System :=
  {| self := f (self s); rt := rt s |}.

Definition set__last_challenge (v : option float) (o : CaptchaTask) : CaptchaTask :=
  {| interval := interval o; info_timeout := info_timeout o;
     _last_challenge := v; _running := _running o;
     _loop_attr := _loop_attr o; _task := _task o;
     _captcha_thread := _captcha_thread o |}.

Definition set__running (v : bool) (o : CaptchaTask) : CaptchaTask :=
  {| interval := interval o; info_timeout := info_timeout o;
     _last_challenge := _last_challenge o; _running := v;
     _loop_attr := _loop_attr o; _task := _task o;
     _captcha_thread := _captcha_thread o |}.

Definition set__task (v : option future_id) (o : CaptchaTask) : CaptchaTask :=
  {| interval := interval o; info_timeout := info_timeout o;
     _last_challenge := _last_challenge o; _running := _running o;
     _loop_attr := _loop_attr o; _task := v;
     _captcha_thread := _captcha_thread o |}.

Definition set__captcha_thread (v : option thread_id) (o : CaptchaTask) : CaptchaTask :=
  {| interval := interval o; info_timeout := info_timeout o;
     _last_challenge := _last_challenge o; _running := _running o;
     _loop_attr := _loop_attr o; _task := _task o;
     _captcha_thread := v |}.

(** [CaptchaTask._run_captcha_challenge_async]. *)
Definition _run_captcha_challenge_async (s : System) : System :=
  let r := rt s in
  let called := S (triggers r) in
  match _loop (self s) with
  | None =>
      (* threading.Thread(target=run_async_captcha); daemon; start() *)
      let t := length (threads r) in
      {| self := set__captcha_thread (Some t) (self s);
         rt := {| threads := threads r ++ [ThreadStarted];
                  futures := futures r;
                  triggers := called |} |}
  | Some loop =>
      let idle :=
        match _task (self s) with
        | None => true
        | Some f => done r f
        end in
      if idle then
        (* asyncio.run_coroutine_threadsafe(coroutine, self._loop) *)
        let f := length (futures r) in
        {| self := set__task (Some f) (self s);
           rt := {| threads := threads r;
                    futures := futures r ++ [FuturePending loop];
                    triggers := called |} |}
      else
        {| self := self s;
           rt := {| threads := threads r;
                    futures := futures r;
                    triggers := called |} |}
  end.

(** The test of line 70. *)
Definition due (o : CaptchaTask) (now : float) : bool :=
  match _last_challenge o with
  | None => true
  | Some last => ge_int (sub now last) (interval o)
  end.

(** [CaptchaTask.tick(now)]. *)
Definition tick (now : float) (s : System) : System :=
  if due (self s) now then
    _run_captcha_challenge_async (with_self (set__last_challenge (Some now)) s)
  else s.

(** [CaptchaTask.start()]. *)
Definition start (s : System) : System := with_self (set__running true) s.

(** [CaptchaTask.stop()]: the flag is cleared and an unfinished future is
    cancelled; a live thread is left alone. *)
Definition stop (s : System) : System :=
  let s1 := with_self (set__running false) s in
  match _task (self s1) with
  | Some f =>
      if negb (done (rt s1) f) then
        {| self := self s1;
           rt := {| threads := threads (rt s1);
                    futures := <[f := FutureCancelled]> (futures (rt s1));
                    triggers := triggers (rt s1) |} |}
      else s1
  | None => s1
  end.

(** What the background does between two calls of the driver. *)
Inductive event :=
| Tick (now : float)
| Start
| Stop
| ThreadBegins (t : thread_id)
| ThreadEnds (t : thread_id)
| FutureBegins (f : future_id)
| FutureEnds (f : future_id).

(** The target [run_async_captcha] of thread [t], up to the point where
    [run_until_complete] has entered the challenge: the new loop is stored
    in [_loop]. *)
Definition thread_begins (t : thread_id) (s : System) : System :=
  match threads (rt s) !! t with
  | Some ThreadStarted =>
      {| self := set__loop (Some t) (self s);
         rt := {| threads := <[t := ThreadRunning]> (threads (rt s));
                  futures := futures (rt s);
                  triggers := triggers (rt s) |} |}
  | _ => s
  end.

(** The rest of the target: the challenge of thread [t] returns, and the
    [finally] block closes the loop and clears [_loop]. *)
Definition thread_ends (t : thread_id) (s : System) : System :=
  match threads (rt s) !! t with
  | Some ThreadRunning =>
      {| self := set__loop None (self s);
         rt := {| threads := <[t := ThreadFinished]> (threads (rt s));
                  futures := futures (rt s);
                  triggers := triggers (rt s) |} |}
  | _ => s
  end.

Definition loop_running (r : Runtime) (loop : loop_id) : bool :=
  match threads r !! loop with
  | Some ThreadRunning => true
  | _ => false
  end.

(** A running loop takes up the coroutine handed to it. *)
Definition future_begins (f : future_id) (s : System) : System :=
  match futures (rt s) !! f with
  | Some (FuturePending loop) =>
      if loop_running (rt s) loop then
        {| self := self s;
           rt := {| threads := threads (rt s);
                    futures := <[f := FutureRunning loop]> (futures (rt s));
                    triggers := triggers (rt s) |} |}
      else s
  | _ => s
  end.

(** The coroutine of a future returns while its loop still runs. *)
Definition future_ends (f : future_id) (s : System) : System :=
  match futures (rt s) !! f with
  | Some (FutureRunning loop) =>
      if loop_running (rt s) loop then
        {| self := self s;
           rt := {| threads := threads (rt s);
                    futures := <[f := FutureFinished]> (futures (rt s));
                    triggers := triggers (rt s) |} |}
      else s
  | _ => s
  end.

Definition step (e : event) (s : System) : System :=
  match e with
  | Tick now => tick now s
  | Start => start s
  | Stop => stop s
  | ThreadBegins t => thread_begins t s
  | ThreadEnds t => thread_ends t s
  | FutureBegins f => future_begins f s
  | FutureEnds f => future_ends f s
  end.

Definition run (es : list event) (s : System) : System :=
  fold_left (fun s e => step e s) es s.

(** A task straight from its constructor, nothing created yet. *)
Definition fresh (interval info_timeout : Z) : System :=
  {| self := __init__ interval info_timeout;
     rt := {| threads := []; futures := []; triggers := 0 |} |}.

(** The challenge instances in progress: the threads inside
    [run_until_complete] and the futures whose coroutine has begun. *)
Definition thread_active (t : thread_state) : bool :=
  match t with ThreadRunning => true | _ => false end.

Definition future_active (f : future_state) : bool :=
  match f with FutureRunning _ => true | _ => false end.

Definition active_instances (r : Runtime) : nat :=
  length (List.filter thread_active (threads r))
  + length (List.filter future_active (futures r)).

(** The instances created so far, started or not. *)
Definition created_instances (r : Runtime) : nat :=
  length (threads r) + length (futures r).

End Scheduler.

(** ** Pickling *)

Module Pickle.

Import PyFloat.

(** The values of the instance attributes. *)
Inductive attr :=
| AInt (n : Z)
| AFloat (x : float)
| ABool (b : bool)
| ANone
| ALoop (l : loop_id)
| AFuture (f : future_id)
| AThread (t : thread_id).

Definition opt {A} (f : A -> attr) (o : option A) : attr :=
  match o with Some a => f a | None => ANone end.

(** [self.__dict__]. *)
Definition __dict__ (self : CaptchaTask) : gmap string attr :=
  list_to_map
    [ ("interval", AInt (interval self));
      ("info_timeout", AInt (info_timeout self));
      ("_last_challenge", opt AFloat (_last_challenge self));
      ("_running", ABool (_running self));
      ("_loop_attr", opt ALoop (_loop_attr self));
      ("_task", opt AFuture (_task self));
      ("_captcha_thread", opt AThread (_captcha_thread self)) ].

(** [dict.pop(key, None)], for the mapping it leaves. *)
Definition pop (key : string) (d : gmap string attr) : gmap string attr :=
  delete key d.

(** [CaptchaTask.__getstate__]. *)
Definition __getstate__ (self : CaptchaTask) : gmap string attr :=
  let state := __dict__ self in
  let state := pop "_loop_attr" state in
  let state := pop "_task" state in
  let state := pop "_captcha_thread" state in
  state.

End Pickle.

(** ** Words of a command line *)

Module Words.

(** Text that holds no single quote: inside quotes [shlex] takes it as it
    is. *)
Definition quote_free (s : string) : bool :=
  forallb (fun c => negb (Ascii.eqb c "'"%char)) (list_ascii_of_string s).

(** A character that neither ends a word nor opens a quote. *)
Definition word_char (c : ascii) : bool :=
  negb (Ascii.eqb c "'"%char)
  && negb (PyText.is_space c || Ascii.eqb c "010"%char).

Definition is_word (s : string) : bool :=
  forallb word_char (list_ascii_of_string s).

End Words.

(** ** Methods on an instance given by its attribute dictionary

    An instance rebuilt from a pickled state has the state as its
    [__dict__]; attributes that [__getstate__] removed are missing, and
    reading one raises AttributeError. *)

Module Restored.

Import Scheduler Pickle.

(** The getter of the [_loop] property: [getattr(self, '_loop_attr', None)]. *)
Definition _loop_getter (d : gmap string attr) : attr :=
  default ANone (d !! "_loop_attr").

(** [future.cancel()]. *)
Definition cancel (f : future_id) (r : Runtime) : Runtime :=
  {| threads := threads r;
     futures := <[f := FutureCancelled]> (futures r);
     triggers := triggers r |}.

(** [CaptchaTask.stop()] on the dictionary [d]: the dictionary and the run
    time it leaves, and the name of the missing attribute when it raises
    AttributeError.  [_task] and [_captcha_thread] hold a handle or [None]. *)
Definition stop (d : gmap string attr) (r : Runtime)
    : gmap string attr * Runtime * option string :=
  let d1 := <["_running" := ABool false]> d in
  match d1 !! "_task" with
  | None => (d1, r, Some "_task")
  | Some task =>
      let r1 :=
        match task with
        | AFuture f => if negb (done r f) then cancel f r else r
        | _ => r
        end in
      match d1 !! "_captcha_thread" with
      | None => (d1, r1, Some "_captcha_thread")
      | Some _ => (d1, r1, None)
      end
  end.

(** [CaptchaTask.start()] on the dictionary [d]. *)
Definition start (d : gmap string attr) : gmap string attr :=
  <["_running" := ABool true]> d.

End Restored.

(** ** Calls of the driver *)

Module Driver.

Import Scheduler.

(** The flag after the calls of [start] and [stop] among the events [es],
    [b] being the flag before. *)
Definition running_after (es : list event) (b : bool) : bool :=
  fold_left (fun b e => match e with
                        | Start => true
                        | Stop => false
                        | _ => b
                        end) es b.

(** The guard of line 94 holds a trigger back: a loop is stored in [_loop]
    and [_task] holds a future that is not done. *)
Definition held_back (s : System) : bool :=
  match _loop (self s), _task (self s) with
  | Some _, Some f => negb (done (rt s) f)
  | _, _ => false
  end.

(** No challenge has run yet, or the interval has passed since the last
    one. *)
Definition interval_elapsed (now : PyFloat.float) (s : System) : Prop :=
  _last_challenge (self s) = None
  \/ exists last,
       _last_challenge (self s) = Some last
       /\ PyFloat.ge_int (PyFloat.sub now last) (interval (self s)) = true.

(** The reading of [tick] under which every elapsed interval starts a
    challenge instance, a thread or a scheduled coroutine. *)
Definition tick_starts_iff_elapsed : Prop :=
  forall (now : PyFloat.float) (s : System),
    created_instances (rt (tick now s)) = S (created_instances (rt s))
    <-> interval_elapsed now s.

End Driver.

(** * Properties *)

(** ** Signs through the float operations *)

Module PyFloatFacts.

Import PyFloat.






End PyFloatFacts.

Module ChallengeFacts.

Import PyFloat Challenge PyFloatFacts.

Lemma sample_space_complete i j k :
  (i < 20)%nat -> (j < 20)%nat -> (k < 2)%nat -> (i, j, k) ∈ sample_space.
Proof.
  intros Hi Hj Hk. unfold sample_space.
  apply list_elem_of_bind. exists i. split.
  - apply list_elem_of_bind. exists j. split.
    + apply list_elem_of_bind. exists k. split; [left|].
      apply elem_of_seq. lia.
    + apply elem_of_seq. lia.
  - apply elem_of_seq. lia.
Qed.

Lemma eval_checks_all : forallb eval_checks sample_space = true.
Proof. vm_compute. reflexivity. Qed.

Lemma eval_generated r1 r2 r3 :
  PyText.eval (expression_of (operand r1) (operator r3) (operand r2))
  = Some (apply_operator (operator r3) (operand r1) (operand r2)).
Proof.
  pose proof eval_checks_all as H.
  rewrite forallb_forall in H.
  specialize (H (r1 `mod` 20, r2 `mod` 20, r3 `mod` 2)%nat).
  unfold eval_checks, challenge_of in H.
  assert (Hop : forall r, operand (r `mod` 20) = operand r).
  { intros r. unfold operand. now rewrite Nat.Div0.mod_mod. }
  assert (Hor : forall r, operator (r `mod` 2) = operator r).
  { intros r. unfold operator. now rewrite Nat.Div0.mod_mod. }
  rewrite !Hop, Hor in H.
  destruct (PyText.eval _) as [v|].
  - f_equal. apply Z.eqb_eq. apply H.
    apply list_elem_of_In, sample_space_complete; apply Nat.mod_upper_bound; lia.
  - discriminate H.
    apply list_elem_of_In, sample_space_complete; apply Nat.mod_upper_bound; lia.
Qed.

Lemma generate_problem_run w :
  generate_problem w
  = (Ok (operand (draw w 0), operator (draw w 2), operand (draw w 1),
         drawn_expression w, drawn_answer w),
     skip_draws 3 w).
Proof.
  unfold generate_problem, randint, choice, _randbelow, eval.
  unfold mbind, M_bind, mret, M_ret. cbn [rand_src rand_pos].
  change (Z.to_nat (20 - 1 + 1)) with 20%nat.
  change (length ["+"; "-"]) with 2%nat.
  fold (operand (rand_src w (rand_pos w))).
  fold (operand (rand_src w (S (rand_pos w)))).
  fold (operator (rand_src w (S (S (rand_pos w))))).
  fold (expression_of (operand (rand_src w (rand_pos w)))
          (operator (rand_src w (S (S (rand_pos w)))))
          (operand (rand_src w (S (rand_pos w))))).
  rewrite eval_generated. reflexivity.
Qed.

#[local] Arguments shlex_split : simpl never.
#[local] Arguments PyText.str : simpl never.
#[local] Arguments mul_int : simpl never.
#[local] Arguments total_seconds : simpl never.
#[local] Arguments to_int : simpl never.
#[local] Arguments event_dict : simpl never.
#[local] Arguments math_cmd : simpl never.
#[local] Arguments success_cmd : simpl never.

(** Closes a goal on the final world of a run: the counters and the added
    effects are read off the computed world. *)
Ltac run_done :=
  do 4 eexists; split;
  [ unfold after_dialog;
    cbn [clock clock_pos rand_src rand_pos procs procs_pos tracker_user trace];
    rewrite <- ?app_assoc; reflexivity
  | split; reflexivity ].

Lemma effects_of_app {A} (m : M A) w es :
  trace (snd (m w)) = trace w ++ es -> effects_of m w = es.
Proof. intros H. unfold effects_of. rewrite H. apply drop_app_length. Qed.

Section Run.

Variable int_of_text : string -> option Z.
Variable self : CaptchaTask.

Lemma notice_run (cmd : string) w :
  try_except (_ ← run_process (shlex_split cmd); mret tt)
    is_Exception (fun _ => mret tt) w
  = (wait_result tt w, after_dialog (Exec (shlex_split cmd)) w).
Proof.
  unfold try_except, run_process, mbind, M_bind, mret, M_ret, after_dialog,
    wait_result.
  destruct (procs w (procs_pos w)); reflexivity.
Qed.

Lemma show_math_run expression w :
  _show_math_dialog_async int_of_text self expression w
  = match procs w (procs_pos w) with
    | ProcRaises => (Ok None, after_dialog (prompt expression) w)
    | ProcCancelled =>
        (Raise CancelledError, after_dialog (prompt expression) w)
    | ProcExit returncode stdout =>
        if negb (returncode =? 0)
        then (Ok None, after_dialog (prompt expression) w)
        else match int_of_text stdout with
             | Some n => (Ok (Some n), after_dialog (prompt expression) w)
             | None =>
                 (wait_result None (after_dialog (prompt expression) w),
                  after_dialog invalid_input_notice
                    (after_dialog (prompt expression) w))
             end
    end.
Proof.
  unfold _show_math_dialog_async, try_except at 1.
  unfold mbind at 1, M_bind at 1, run_process.
  destruct (procs w (procs_pos w)) as [|rc out|] eqn:Hp;
    [reflexivity| |reflexivity].
  destruct (negb (rc =? 0)); [reflexivity|].
  unfold try_except, int_of_stdout, mbind, M_bind.
  destruct (int_of_text out) as [n|]; [reflexivity|].
  unfold raise, is_ValueError, _show_invalid_input_dialog_async.
  match goal with
  | |- context [try_except ?b ?h ?k ?x] =>
      change (try_except b h k x)
        with (try_except (_ ← run_process (shlex_split invalid_input_cmd);
                          mret tt) is_Exception (fun _ => mret tt) x);
      rewrite (notice_run invalid_input_cmd x)
  end.
  unfold wait_result, after_dialog.
  cbn [procs procs_pos].
  destruct (procs w (S (procs_pos w))); reflexivity.
Qed.

(** The whole run, case by case on what the prompt's process does. *)
Lemma coroutine_run w :
  let e := drawn_expression w in
  let c := clock w (clock_pos w) in
  let a := clock w (S (clock_pos w)) in
  fst (_captcha_challenge_coroutine int_of_text self w)
  = match procs w (procs_pos w) with
    | ProcRaises => Ok tt
    | ProcCancelled => Raise CancelledError
    | ProcExit returncode stdout =>
        if negb (returncode =? 0) then Ok tt
        else
          match int_of_text stdout with
          | None => second_wait w
          | Some n =>
              match response_time_ms c a with
              | None => Ok tt
              | Some ms => second_wait w
              end
          end
    end
  /\ effects_of (_captcha_challenge_coroutine int_of_text self) w
     = match procs w (procs_pos w) with
       | ProcRaises | ProcCancelled => [prompt e]
       | ProcExit returncode stdout =>
           if negb (returncode =? 0) then [prompt e]
           else
             match int_of_text stdout with
             | None => [prompt e; invalid_input_notice]
             | Some n =>
                 match response_time_ms c a with
                 | None =>
                     [prompt e;
                      PrintError (int_error
                               (mul_int (total_seconds (a - c)) 1000))]
                 | Some ms =>
                     [prompt e;
                      EventStorePush
                        (event_dict (tracker_user w) e n (drawn_answer w)
                           (n =? drawn_answer w) c a ms);
                      if n =? drawn_answer w
                      then success_notice self else warning_notice]
                 end
             end
       end.
Proof.
  intros e c a.
  assert (H :
    exists r es readings dialogs,
      _captcha_challenge_coroutine int_of_text self w
      = (r,
         {| rand_src := rand_src w; rand_pos := 3 + rand_pos w;
            clock := clock w; clock_pos := readings;
            procs := procs w; procs_pos := dialogs;
            tracker_user := tracker_user w;
            trace := trace w ++ es |})
      /\ r = match procs w (procs_pos w) with
             | ProcRaises => Ok tt
             | ProcCancelled => Raise CancelledError
             | ProcExit returncode stdout =>
                 if negb (returncode =? 0) then Ok tt
                 else
                   match int_of_text stdout with
                   | None => second_wait w
                   | Some n =>
                       match response_time_ms c a with
                       | None => Ok tt
                       | Some ms => second_wait w
                       end
                   end
             end
      /\ es = match procs w (procs_pos w) with
              | ProcRaises | ProcCancelled => [prompt e]
              | ProcExit returncode stdout =>
                  if negb (returncode =? 0) then [prompt e]
                  else
                    match int_of_text stdout with
                    | None => [prompt e; invalid_input_notice]
                    | Some n =>
                        match response_time_ms c a with
                        | None =>
                            [prompt e;
                             PrintError (int_error
                                      (mul_int (total_seconds (a - c)) 1000))]
                        | Some ms =>
                            [prompt e;
                             EventStorePush
                               (event_dict (tracker_user w) e n
                                  (drawn_answer w) (n =? drawn_answer w)
                                  c a ms);
                             if n =? drawn_answer w
                             then success_notice self else warning_notice]
                        end
                    end
              end).
  { unfold _captcha_challenge_coroutine, try_except at 1.
    unfold mbind at 1, M_bind at 1. rewrite generate_problem_run.
    unfold mbind at 1, M_bind at 1, datetime_now at 1.
    cbn [clock clock_pos skip_draws rand_src rand_pos procs procs_pos
         tracker_user trace].
    unfold mbind at 1, M_bind at 1. rewrite show_math_run.
    cbn [clock clock_pos skip_draws rand_src rand_pos procs procs_pos
         tracker_user trace].
    fold e c. unfold second_wait, wait_result.
    cbn [after_dialog procs procs_pos].
    destruct (procs w (procs_pos w)) as [|rc out|].
    { run_done. }
    2:{ cbn [is_Exception]. run_done. }
    destruct (negb (rc =? 0)).
    { run_done. }
    destruct (int_of_text out) as [n|].
    2:{ destruct (procs w (S (procs_pos w))); cbn [is_Exception]; run_done. }
    unfold mbind at 1, M_bind at 1, datetime_now at 1.
    cbn [clock clock_pos after_dialog rand_src rand_pos procs procs_pos
         tracker_user trace].
    fold a.
    unfold mbind at 1, M_bind at 1, int_of_float, response_time_ms.
    destruct (to_int (mul_int (total_seconds (a - c)) 1000)) as [ms|].
    2:{ unfold raise, print_error, emit.
        destruct (mul_int (total_seconds (a - c)) 1000);
          cbn [int_error is_Exception]; run_done. }
    unfold mret at 1, M_ret at 1.
    unfold mbind at 1, M_bind at 1, _log_captcha_event.
    unfold mbind at 1, M_bind at 1, tracker_settings_user,
      EventStore_push, emit.
    cbn [clock clock_pos after_dialog rand_src rand_pos procs procs_pos
         tracker_user trace].
    destruct (n =? drawn_answer w).
    - unfold _show_success_dialog_async. rewrite notice_run.
      unfold wait_result. cbn [procs procs_pos].
      destruct (procs w (S (procs_pos w))); cbn [is_Exception]; run_done.
    - unfold _show_error_dialog_async. rewrite notice_run.
      unfold wait_result. cbn [procs procs_pos].
      destruct (procs w (S (procs_pos w))); cbn [is_Exception]; run_done. }
  destruct H as (r & es & readings & dialogs & Hrun & Hr & Hes).
  split.
  - rewrite Hrun. exact Hr.
  - rewrite <- Hes. apply effects_of_app. rewrite Hrun. reflexivity.
Qed.

(** Whatever is pushed is the mapping of [_log_captcha_event], built
    from a submitted answer. *)
Lemma pushed_inv w d :
  EventStorePush d
    ∈ effects_of (_captcha_challenge_coroutine int_of_text self) w ->
  exists stdout n ms,
    procs w (procs_pos w) = ProcExit 0 stdout
    /\ int_of_text stdout = Some n
    /\ response_time_ms (clock w (clock_pos w))
         (clock w (S (clock_pos w))) = Some ms
    /\ d = event_dict (tracker_user w) (drawn_expression w) n
             (drawn_answer w) (n =? drawn_answer w)
             (clock w (clock_pos w)) (clock w (S (clock_pos w))) ms.
Proof.
  destruct (coroutine_run w) as [_ ->].
  destruct (procs w (procs_pos w)) as [|rc out|].
  { intros H. apply list_elem_of_singleton in H. discriminate H. }
  2:{ intros H. apply list_elem_of_singleton in H. discriminate H. }
  destruct (Z.eqb_spec rc 0) as [->|Hrc]; cbn [negb].
  2:{ intros H. apply list_elem_of_singleton in H. discriminate H. }
  destruct (int_of_text out) as [n|] eqn:Hn.
  2:{ intros H. rewrite !elem_of_cons in H.
      destruct H as [H|[H|H]]; [discriminate H|discriminate H|].
      now apply elem_of_nil in H. }
  destruct (response_time_ms _ _) as [ms|] eqn:Hms.
  2:{ intros H. rewrite !elem_of_cons in H.
      destruct H as [H|[H|H]]; [discriminate H|discriminate H|].
      now apply elem_of_nil in H. }
  intros H. rewrite !elem_of_cons in H.
  destruct H as [H|[H|[H|H]]].
  - discriminate H.
  - injection H as ->. exists out, n, ms. auto.
  - destruct (n =? drawn_answer w); discriminate H.
  - now apply elem_of_nil in H.
Qed.

End Run.

Lemma event_dict_fields user e n ca ic c a ms :
  let d := event_dict user e n ca ic c a ms in
  d !! "username" = Some (VStr user)
  /\ d !! "timestamp" = Some (VDatetime c)
  /\ d !! "event" = Some (VStr "captcha_challenge")
  /\ d !! "expression" = Some (VStr e)
  /\ d !! "user_answer" = Some (VInt n)
  /\ d !! "correct_answer" = Some (VInt ca)
  /\ d !! "is_correct" = Some (VBool ic)
  /\ d !! "creation_time" = Some (VDatetime c)
  /\ d !! "answer_time" = Some (VDatetime a)
  /\ d !! "response_time_ms" = Some (VInt ms).
Proof. repeat split; vm_compute; reflexivity. Qed.

Lemma event_dict_dom user e n ca ic c a ms :
  dom (event_dict user e n ca ic c a ms)
  = list_to_set
      ["username"; "timestamp"; "event"; "expression"; "user_answer";
       "correct_answer"; "is_correct"; "creation_time"; "answer_time";
       "response_time_ms"].
Proof. vm_compute. reflexivity. Qed.

(** *** Cancellation and invalid input *)

(** C2.  When the prompt's process exits with a non-zero status, the run
    adds nothing to the trace but the prompt itself: no event is pushed to
    the event store and no success, warning or invalid-input dialog is
    opened.  And in every run, an event that is pushed comes from a prompt
    that exited with status 0 and whose output parsed as the integer the
    event carries as [user_answer]. *)
Theorem cancellation_is_silent
    (int_of_text : string -> option Z) (self : CaptchaTask) (w : World) :
  (forall returncode stdout,
      procs w (procs_pos w) = ProcExit returncode stdout ->
      returncode <> 0 ->
      effects_of (_captcha_challenge_coroutine int_of_text self) w
      = [prompt (drawn_expression w)])
  /\ (forall d,
        EventStorePush d
          ∈ effects_of (_captcha_challenge_coroutine int_of_text self) w ->
        exists stdout n,
          procs w (procs_pos w) = ProcExit 0 stdout
          /\ int_of_text stdout = Some n
          /\ d !! "user_answer" = Some (VInt n)).
Proof.
  split.
  - intros rc out Hp Hrc.
    destruct (coroutine_run int_of_text self w) as [_ ->].
    rewrite Hp. apply Z.eqb_neq in Hrc. now rewrite Hrc.
  - intros d Hd.
    destruct (pushed_inv int_of_text self w d Hd)
      as (out & n & ms & Hp & Hn & _ & ->).
    exists out, n. split; [exact Hp|]. split; [exact Hn|].
    apply event_dict_fields.
Qed.

Lemma cancellation_is_silent_witness :
  effects_of (_captcha_challenge_coroutine ascii_int (__init__ 10 3))
    world_cancelled
  = [prompt "12 - 8"].
Proof.
  refine (proj1 (cancellation_is_silent ascii_int (__init__ 10 3)
                   world_cancelled) 1 EmptyString _ _).
  - reflexivity.
  - discriminate.
Defined.

(** C5.  When the prompt's process exits with status 0 and its output does
    not parse as an integer, the run opens exactly one more dialog, the
    invalid-input notice, and does nothing else: no event is pushed and no
    success or warning dialog is opened. *)
Theorem invalid_input_one_notice
    (int_of_text : string -> option Z) (self : CaptchaTask) (w : World)
    (stdout : string) :
  procs w (procs_pos w) = ProcExit 0 stdout ->
  int_of_text stdout = None ->
  effects_of (_captcha_challenge_coroutine int_of_text self) w
  = [prompt (drawn_expression w); invalid_input_notice]
  /\ invalid_input_notice
     = Exec ["zenity"; "--error"; "--title=Invalid Input";
             "--text=Please enter a valid integer."].
Proof.
  intros Hp Hn. split.
  - destruct (coroutine_run int_of_text self w) as [_ ->].
    rewrite Hp, Hn. reflexivity.
  - vm_compute. reflexivity.
Qed.

Lemma invalid_input_one_notice_witness :
  effects_of (_captcha_challenge_coroutine ascii_int (__init__ 10 3))
    world_invalid
  = [prompt "12 + 8"; invalid_input_notice].
Proof.
  refine (proj1 (invalid_input_one_notice ascii_int (__init__ 10 3)
                   world_invalid "abc" _ _)).
  - reflexivity.
  - vm_compute. reflexivity.
Defined.

(** *** The event record *)

(** C6.  [_log_captcha_event] returns normally and pushes one mapping.  It
    holds the user that the configuration gives when the call is made, the
    creation time under [timestamp], the tag "captcha_challenge" under
    [event], and the seven event fields, and no other key.  Every event a
    run pushes is such a mapping, with the first clock reading of the run as
    its creation time. *)
Theorem event_record_contents
    (int_of_text : string -> option Z) (self : CaptchaTask) :
  (forall expression user_answer correct_answer is_correct creation_time
          answer_time response_time_ms w,
      exists d,
        fst (_log_captcha_event self expression user_answer correct_answer
               is_correct creation_time answer_time response_time_ms w)
        = Ok tt
        /\ trace (snd (_log_captcha_event self expression user_answer
                         correct_answer is_correct creation_time answer_time
                         response_time_ms w))
           = trace w ++ [EventStorePush d]
        /\ d !! "username" = Some (VStr (tracker_user w))
        /\ d !! "timestamp" = Some (VDatetime creation_time)
        /\ d !! "event" = Some (VStr "captcha_challenge")
        /\ d !! "expression" = Some (VStr expression)
        /\ d !! "user_answer" = Some (VInt user_answer)
        /\ d !! "correct_answer" = Some (VInt correct_answer)
        /\ d !! "is_correct" = Some (VBool is_correct)
        /\ d !! "creation_time" = Some (VDatetime creation_time)
        /\ d !! "answer_time" = Some (VDatetime answer_time)
        /\ d !! "response_time_ms" = Some (VInt response_time_ms)
        /\ dom d
           = list_to_set
               ["username"; "timestamp"; "event"; "expression";
                "user_answer"; "correct_answer"; "is_correct";
                "creation_time"; "answer_time"; "response_time_ms"])
  /\ (forall w d,
        EventStorePush d
          ∈ effects_of (_captcha_challenge_coroutine int_of_text self) w ->
        exists n ms,
          d = event_dict (tracker_user w) (drawn_expression w) n
                (drawn_answer w) (n =? drawn_answer w)
                (clock w (clock_pos w)) (clock w (S (clock_pos w))) ms
          /\ d !! "username" = Some (VStr (tracker_user w))
          /\ d !! "timestamp" = Some (VDatetime (clock w (clock_pos w)))
          /\ d !! "creation_time" = Some (VDatetime (clock w (clock_pos w)))
          /\ d !! "event" = Some (VStr "captcha_challenge")).
Proof.
  split.
  - intros e n ca ic c a ms w.
    exists (event_dict (tracker_user w) e n ca ic c a ms).
    split; [reflexivity|]. split; [reflexivity|].
    pose proof (event_dict_fields (tracker_user w) e n ca ic c a ms) as H.
    cbv zeta in H. destruct H as (?&?&?&?&?&?&?&?&?&?).
    repeat (split; [assumption|]). apply event_dict_dom.
  - intros w d Hd.
    destruct (pushed_inv int_of_text self w d Hd)
      as (out & n & ms & _ & _ & _ & ->).
    exists n, ms. split; [reflexivity|].
    pose proof (event_dict_fields (tracker_user w) (drawn_expression w) n
                  (drawn_answer w) (n =? drawn_answer w)
                  (clock w (clock_pos w)) (clock w (S (clock_pos w))) ms) as H.
    cbv zeta in H. destruct H as (?&?&?&?&?&?&?&?&?&?). auto.
Qed.

(** *** Response time *)






(** *** The generated problem *)

Lemma operand_range (r : nat) : 1 <= operand r <= 20.
Proof.
  unfold operand.
  pose proof (Nat.mod_upper_bound r 20 ltac:(lia)). lia.
Qed.

Lemma operator_cases (r : nat) :
  ((r `mod` 2)%nat = 0%nat /\ operator r = "+")
  \/ ((r `mod` 2)%nat = 1%nat /\ operator r = "-").
Proof.
  unfold operator.
  pose proof (Nat.mod_upper_bound r 2 ltac:(lia)) as H.
  destruct (r `mod` 2)%nat as [|[|k]]; [left|right|lia]; split; reflexivity.
Qed.

Lemma sample_space_bounds i j k :
  (i, j, k) ∈ sample_space -> (i < 20)%nat /\ (j < 20)%nat /\ (k < 2)%nat.
Proof.
  unfold sample_space. intros H.
  apply list_elem_of_bind in H as (i' & H & Hi).
  apply list_elem_of_bind in H as (j' & H & Hj).
  apply list_elem_of_bind in H as (k' & H & Hk).
  apply list_elem_of_singleton in H. injection H as -> -> ->.
  apply elem_of_seq in Hi, Hj, Hk. lia.
Qed.

(** C3.  Every run of the generator returns operands [a] and [b] in
    [[1, 20]], an operator [op] that is "+" or "-", the text "a op b", and as
    correct answer the value [eval] gives that text, which is [a + b] or
    [a - b] in exact integer arithmetic.  The operands and the operator are
    read off three calls of [_randbelow], of ranges 20, 20 and 2: each of
    the 800 triples of results gives a different challenge and each
    challenge comes from exactly one triple, so that equiprobable results
    give equiprobable operands and operators. *)
Theorem generated_challenge :
  (forall w,
      exists a op b,
        generate_problem w
        = (Ok (a, op, b, expression_of a op b, apply_operator op a b),
           skip_draws 3 w)
        /\ (a, op, b)
           = challenge_of (draw w 0 `mod` 20, draw w 1 `mod` 20,
                           draw w 2 `mod` 2)%nat
        /\ 1 <= a <= 20 /\ 1 <= b <= 20
        /\ ((op = "+" /\ apply_operator op a b = a + b)
            \/ (op = "-" /\ apply_operator op a b = a - b))
        /\ PyText.eval (expression_of a op b) = Some (apply_operator op a b))
  /\ length sample_space = 800%nat
  /\ (forall a op b,
        1 <= a <= 20 -> 1 <= b <= 20 -> op = "+" \/ op = "-" ->
        exists d,
          d ∈ sample_space /\ challenge_of d = (a, op, b)
          /\ forall d', d' ∈ sample_space -> challenge_of d' = (a, op, b) ->
                        d' = d).
Proof.
  split; [|split].
  - intros w. rewrite generate_problem_run.
    exists (operand (draw w 0)), (operator (draw w 2)), (operand (draw w 1)).
    split; [reflexivity|]. split.
    { unfold challenge_of, operand, operator.
      now rewrite !Nat.Div0.mod_mod. }
    split; [apply operand_range|]. split; [apply operand_range|]. split.
    + destruct (operator_cases (draw w 2)) as [[_ ->]|[_ ->]];
        [left|right]; split; reflexivity.
    + apply eval_generated.
  - vm_compute. reflexivity.
  - intros a op b Ha Hb Hop.
    exists (Z.to_nat (a - 1), Z.to_nat (b - 1),
            if String.eqb op "+" then 0%nat else 1%nat).
    assert (Hopd : forall x, 1 <= x <= 20 -> operand (Z.to_nat (x - 1)) = x).
    { intros x Hx. unfold operand. rewrite Nat.mod_small by lia. lia. }
    split; [|split].
    + apply sample_space_complete; [lia|lia|].
      destruct (String.eqb op "+"); lia.
    + unfold challenge_of. rewrite !Hopd by assumption.
      destruct Hop as [-> | ->]; reflexivity.
    + intros [[i j] k] Hd' Hc.
      apply sample_space_bounds in Hd' as (Hi & Hj & Hk).
      unfold challenge_of in Hc. injection Hc as Hi' Hk' Hj'.
      unfold operand in Hi', Hj'.
      rewrite Nat.mod_small in Hi', Hj' by lia.
      f_equal; [f_equal; lia|].
      subst op. unfold operator. rewrite Nat.mod_small by lia.
      destruct k as [|[|k]]; [reflexivity|reflexivity|lia].
Qed.

(** C10.  The correct answer of every generated problem lies in
    [[-19, 40]], and both ends are reached; so is the correct answer of
    every pushed event.  With the operator "-" it can be negative: the run
    that draws "1 - 20" and is answered "-19" pushes an event whose
    [correct_answer] is -19. *)
Theorem correct_answer_range :
  (forall w,
      exists a op b expr correct_answer,
        fst (generate_problem w) = Ok (a, op, b, expr, correct_answer)
        /\ -19 <= correct_answer <= 40)
  /\ (forall int_of_text self w d,
        EventStorePush d
          ∈ effects_of (_captcha_challenge_coroutine int_of_text self) w ->
        exists correct_answer,
          d !! "correct_answer" = Some (VInt correct_answer)
          /\ -19 <= correct_answer <= 40)
  /\ fst (generate_problem (world [0; 19; 1]%nat [] [] ""))
     = Ok (1, "-", 20, "1 - 20", -19)
  /\ fst (generate_problem (world [19; 19; 0]%nat [] [] ""))
     = Ok (20, "+", 20, "20 + 20", 40)
  /\ effects_of (_captcha_challenge_coroutine ascii_int (__init__ 10 3))
       world_negative
     = [prompt "1 - 20";
        EventStorePush
          (event_dict "alice" "1 - 20" (-19) (-19) true 1000 2500000 2499);
        success_notice (__init__ 10 3)].
Proof.
  assert (Hrange : forall w, -19 <= drawn_answer w <= 40).
  { intros w. unfold drawn_answer, apply_operator.
    pose proof (operand_range (draw w 0)).
    pose proof (operand_range (draw w 1)).
    destruct (String.eqb _ _); lia. }
  split; [|split; [|split; [|split]]].
  - intros w. rewrite generate_problem_run.
    do 5 eexists. split; [reflexivity|]. apply Hrange.
  - intros int_of_text self w d Hd.
    destruct (pushed_inv int_of_text self w d Hd)
      as (out & n & ms & _ & _ & _ & ->).
    exists (drawn_answer w). split; [apply event_dict_fields|apply Hrange].
  - vm_compute. reflexivity.
  - vm_compute. reflexivity.
  - vm_compute. reflexivity.
Qed.

End ChallengeFacts.

(** ** The scheduler *)

Module SchedulerFacts.

Import PyFloat Scheduler Driver.

(** A call of [_run_captcha_challenge_async] is counted, and leaves
    [_last_challenge], [interval] and [_running] as they are. *)
Lemma trigger_counted s :
  triggers (rt (_run_captcha_challenge_async s)) = S (triggers (rt s))
  /\ _last_challenge (self (_run_captcha_challenge_async s))
     = _last_challenge (self s)
  /\ interval (self (_run_captcha_challenge_async s)) = interval (self s)
  /\ _running (self (_run_captcha_challenge_async s)) = _running (self s).
Proof.
  unfold _run_captcha_challenge_async.
  destruct (_loop (self s)) as [loop|]; [|repeat split].
  destruct (_task (self s)) as [f|]; [destruct (done (rt s) f)|];
    repeat split.
Qed.

(** The guard of line 94: with a loop in [_loop] and an unfinished future in
    [_task], a call creates nothing. *)
Lemma trigger_suppressed s loop f :
  _loop (self s) = Some loop ->
  _task (self s) = Some f ->
  done (rt s) f = false ->
  self (_run_captcha_challenge_async s) = self s
  /\ threads (rt (_run_captcha_challenge_async s)) = threads (rt s)
  /\ futures (rt (_run_captcha_challenge_async s)) = futures (rt s).
Proof.
  intros Hl Ht Hd. unfold _run_captcha_challenge_async.
  rewrite Hl, Ht, Hd. repeat split.
Qed.

(** Unless that guard applies, a call creates one thread or one future. *)
Lemma trigger_creates s :
  _loop (self s) = None
  \/ _task (self s) = None
  \/ (exists f, _task (self s) = Some f /\ done (rt s) f = true) ->
  created_instances (rt (_run_captcha_challenge_async s))
  = S (created_instances (rt s)).
Proof.
  unfold _run_captcha_challenge_async, created_instances.
  destruct (_loop (self s)) as [loop|] eqn:Hl.
  - intros [H|[H|(f & H & Hd)]]; [discriminate H| |]; rewrite H; [|rewrite Hd];
      cbn [rt threads futures]; rewrite length_app; cbn [length]; lia.
  - intros _. cbn [rt threads futures]. rewrite length_app. cbn [length]. lia.
Qed.

Lemma due_iff_elapsed (now : float) (s : System) :
  due (self s) now = true <-> interval_elapsed now s.
Proof.
  unfold due, interval_elapsed.
  destruct (_last_challenge (self s)) as [last|].
  - split.
    + intros H. right. exists last. auto.
    + intros [H|(l & [= <-] & H)]; [discriminate H|exact H].
  - split; auto.
Qed.

(** What one call of [_run_captcha_challenge_async] creates. *)
Lemma trigger_outcome (s : System) :
  _last_challenge (self (_run_captcha_challenge_async s))
  = _last_challenge (self s)
  /\ match _loop (self s) with
     | None =>
         threads (rt (_run_captcha_challenge_async s))
         = threads (rt s) ++ [ThreadStarted]
         /\ futures (rt (_run_captcha_challenge_async s)) = futures (rt s)
     | Some loop =>
         threads (rt (_run_captcha_challenge_async s)) = threads (rt s)
         /\ futures (rt (_run_captcha_challenge_async s))
            = if held_back s then futures (rt s)
              else futures (rt s) ++ [FuturePending loop]
     end.
Proof.
  unfold _run_captcha_challenge_async, held_back.
  destruct (_loop (self s)) as [loop|]; [|repeat split].
  destruct (_task (self s)) as [f|]; [destruct (done (rt s) f)|];
    repeat split.
Qed.

(** C1, as the code has it.  [tick(now)] asks for a challenge exactly when
    no challenge has run yet or [now - _last_challenge >= interval], and
    then stores [now] in [_last_challenge].  A challenge instance is
    started, a thread when no loop is stored and else a coroutine handed to
    the stored loop, exactly when in addition the guard of line 94 does not
    hold the trigger back.  Otherwise no instance is started; and when the
    interval has not elapsed nothing changes at all. *)
Theorem tick_starts_instance (now : float) (s : System) :
  (triggers (rt (tick now s)) = S (triggers (rt s))
   <-> interval_elapsed now s)
  /\ (created_instances (rt (tick now s)) = S (created_instances (rt s))
      <-> interval_elapsed now s /\ held_back s = false)
  /\ (~ (interval_elapsed now s /\ held_back s = false) ->
      threads (rt (tick now s)) = threads (rt s)
      /\ futures (rt (tick now s)) = futures (rt s))
  /\ (interval_elapsed now s ->
      _last_challenge (self (tick now s)) = Some now)
  /\ (interval_elapsed now s -> _loop (self s) = None ->
      threads (rt (tick now s)) = threads (rt s) ++ [ThreadStarted]
      /\ futures (rt (tick now s)) = futures (rt s))
  /\ (interval_elapsed now s -> held_back s = false ->
      forall loop, _loop (self s) = Some loop ->
        threads (rt (tick now s)) = threads (rt s)
        /\ futures (rt (tick now s)) = futures (rt s) ++ [FuturePending loop])
  /\ (~ interval_elapsed now s -> tick now s = s).
Proof.
  pose proof (due_iff_elapsed now s) as Hdue.
  split.
  { destruct (trigger_counted (with_self (set__last_challenge (Some now)) s))
      as (Ht & _).
    cbn [with_self rt] in Ht. unfold tick.
    destruct (due (self s) now) eqn:Hd.
    - split; [intros _; now apply Hdue|intros _; exact Ht].
    - split; [intros H; lia|intros H; apply Hdue in H; discriminate H]. }
  assert (Hheld : held_back (with_self (set__last_challenge (Some now)) s)
                  = held_back s) by reflexivity.
  assert (Hloop : _loop (self (with_self (set__last_challenge (Some now)) s))
                  = _loop (self s)) by reflexivity.
  pose proof (trigger_outcome (with_self (set__last_challenge (Some now)) s))
    as (Hl & Hcreate).
  rewrite Hloop, Hheld in Hcreate.
  cbn [with_self self rt set__last_challenge _last_challenge] in Hl, Hcreate.
  unfold tick, created_instances.
  destruct (due (self s) now) eqn:Hd.
  - assert (He : interval_elapsed now s) by now apply Hdue.
    destruct (_loop (self s)) as [loop|] eqn:Hlp.
    + destruct Hcreate as (Hth & Hfu). rewrite Hth, Hfu.
      destruct (held_back s) eqn:Hh.
      * split; [split; [lia|intros [_ H]; discriminate H]|].
        split; [auto|]. split; [auto|].
        split; [intros _ H; discriminate H|].
        split; [intros _ H; discriminate H|]. intros H. now destruct H.
      * rewrite length_app. cbn [length].
        split; [split; [auto|lia]|].
        split; [intros H; now destruct H|]. split; [auto|].
        split; [intros _ H; discriminate H|].
        split; [intros _ _ l [= <-]; auto|]. intros H. now destruct H.
    + destruct Hcreate as (Hth & Hfu). rewrite Hth, Hfu.
      assert (Hh : held_back s = false).
      { unfold held_back. now rewrite Hlp. }
      rewrite length_app. cbn [length].
      split; [split; [auto|lia]|].
      split; [intros H; now destruct H|]. split; [auto|].
      split; [auto|]. split; [intros _ _ l H; discriminate H|].
      intros H. now destruct H.
  - assert (He : ~ interval_elapsed now s).
    { intros H. apply Hdue in H. discriminate H. }
    split; [split; [lia|intros [H _]; now destruct He]|].
    split; [auto|]. split; [intros H; now destruct He|].
    split; [intros H; now destruct He|].
    split; [intros H; now destruct He|]. reflexivity.
Qed.

(** C1 as worded fails where the guard applies.  After a tick at 0, the
    thread's challenge left open, a tick at 10 and the second coroutine
    begun, [_task] holds an unfinished future: at the tick at 20 the
    interval has elapsed, [_last_challenge] becomes 20, and no thread and no
    future is created. *)
Lemma tick_starts_counterexample :
  let s := run [Tick (of_int 0); ThreadBegins 0%nat; Tick (of_int 10);
                FutureBegins 0%nat] (fresh 10 3) in
  _last_challenge (self s) = Some (of_int 10)
  /\ ge_int (sub (of_int 20) (of_int 10)) (interval (self s)) = true
  /\ _last_challenge (self (tick (of_int 20) s)) = Some (of_int 20)
  /\ threads (rt (tick (of_int 20) s)) = threads (rt s)
  /\ futures (rt (tick (of_int 20) s)) = futures (rt s)
  /\ created_instances (rt (tick (of_int 20) s)) = created_instances (rt s)
  /\ ~ tick_starts_iff_elapsed.
Proof.
  do 6 (split; [vm_compute; reflexivity|]).
  intros Hclaim.
  destruct (Hclaim (of_int 20)
              (run [Tick (of_int 0); ThreadBegins 0%nat; Tick (of_int 10);
                    FutureBegins 0%nat] (fresh 10 3))) as [_ H].
  assert (He : interval_elapsed (of_int 20)
                 (run [Tick (of_int 0); ThreadBegins 0%nat; Tick (of_int 10);
                       FutureBegins 0%nat] (fresh 10 3))).
  { right. exists (of_int 10). split; vm_compute; reflexivity. }
  specialize (H He). vm_compute in H. discriminate H.
Qed.

(** The scenario of the specification: interval 10, ticks at 0, 5 and 10. *)
Lemma tick_scenario :
  let s0 := tick (of_int 0) (fresh 10 3) in
  let s5 := tick (of_int 5) s0 in
  let s10 := tick (of_int 10) s5 in
  triggers (rt s0) = 1%nat
  /\ _last_challenge (self s0) = Some (of_int 0)
  /\ s5 = s0
  /\ triggers (rt s10) = 2%nat
  /\ _last_challenge (self s10) = Some (of_int 10).
Proof. vm_compute. repeat split. Qed.

(** C9.  [tick] does not read [_running]: setting the flag before a tick or
    after it gives the same state, and the test of line 70 has the same
    outcome.  So a task that was never started, and a task that was
    stopped, still trigger: a first tick creates the thread of a challenge
    in both. *)
Theorem tick_ignores_running (now : float) (b : bool) (s : System) :
  tick now (with_self (set__running b) s)
  = with_self (set__running b) (tick now s)
  /\ due (set__running b (self s)) now = due (self s) now
  /\ (triggers (rt (tick now (with_self (set__running b) s)))
      = triggers (rt (tick now s)))
  /\ due (self (stop s)) now = due (self s) now
  /\ (forall interval info_timeout,
        let s' := tick now (fresh interval info_timeout) in
        _running (self s') = false
        /\ threads (rt s') = [ThreadStarted]
        /\ triggers (rt s') = 1%nat)
  /\ (forall interval info_timeout,
        let s' := tick now (stop (start (fresh interval info_timeout))) in
        _running (self s') = false
        /\ threads (rt s') = [ThreadStarted]
        /\ triggers (rt s') = 1%nat).
Proof.
  assert (Hcomm :
    tick now (with_self (set__running b) s)
    = with_self (set__running b) (tick now s)).
  { unfold tick, due. cbn [with_self self set__running _last_challenge interval].
    destruct (_last_challenge (self s)) as [last|];
      [destruct (ge_int (sub now last) (interval (self s))); [|reflexivity]|];
      unfold _run_captcha_challenge_async, _loop;
      cbn [with_self self rt set__running set__last_challenge _loop_attr _task];
      destruct (_loop_attr (self s)); try reflexivity;
      destruct (_task (self s)) as [f|]; try reflexivity;
      destruct (done (rt s) f); reflexivity. }
  split; [exact Hcomm|]. split; [reflexivity|]. split.
  { rewrite Hcomm. reflexivity. }
  split.
  { unfold stop, due. cbn [with_self self set__running _task].
    destruct (_task (self s)) as [f|]; [|reflexivity].
    destruct (negb _); reflexivity. }
  split; intros i t; repeat split.
Qed.

Lemma active_instances_future_begins ths fs loop n :
  active_instances
    {| threads := ths; futures := fs ++ [FutureRunning loop]; triggers := n |}
  = S (active_instances
         {| threads := ths; futures := fs ++ [FuturePending loop];
            triggers := n |}).
Proof.
  unfold active_instances. cbn [threads futures].
  rewrite !List.filter_app, !length_app. cbn. lia.
Qed.

(** C7 fails on the code.  Take any state in which a background thread is
    inside its challenge with its loop stored in [_loop], and [_task] holds
    no future: the state every first tick leads to.  A due tick is not
    suppressed there: it hands a second coroutine to the same loop, and once
    the loop takes it up, one more challenge is open than before, while the
    thread's challenge is still open. *)
Theorem second_tick_overlaps (now : float) (s : System) (t : thread_id) :
  _loop (self s) = Some t ->
  loop_running (rt s) t = true ->
  _task (self s) = None ->
  due (self s) now = true ->
  let s2 := tick now s in
  let f := length (futures (rt s)) in
  threads (rt s2) = threads (rt s)
  /\ futures (rt s2) = futures (rt s) ++ [FuturePending t]
  /\ _task (self s2) = Some f
  /\ active_instances (rt s2) = active_instances (rt s)
  /\ active_instances (rt (future_begins f s2))
     = S (active_instances (rt s)).
Proof.
  intros Hl Hr Ht Hd s2 f.
  assert (Hs2 :
    s2 = {| self := set__task (Some f)
                      (set__last_challenge (Some now) (self s));
            rt := {| threads := threads (rt s);
                     futures := futures (rt s) ++ [FuturePending t];
                     triggers := S (triggers (rt s)) |} |}).
  { unfold s2, tick. rewrite Hd. unfold _run_captcha_challenge_async.
    cbn [with_self self rt]. unfold _loop in *.
    cbn [set__last_challenge _loop_attr _task]. now rewrite Hl, Ht. }
  assert (Hact :
    active_instances (rt s2) = active_instances (rt s)).
  { rewrite Hs2. unfold active_instances. cbn [rt threads futures].
    rewrite List.filter_app, length_app. cbn. lia. }
  split; [now rewrite Hs2|]. split; [now rewrite Hs2|].
  split; [now rewrite Hs2|]. split; [exact Hact|].
  rewrite <- Hact, Hs2. unfold future_begins. cbn [rt self futures threads].
  assert (Hlk : (futures (rt s) ++ [FuturePending t]) !! f
                 = Some (FuturePending t))
    by (apply list_lookup_middle; reflexivity).
  unfold future_id, thread_id, loop_id in *. rewrite Hlk.
  unfold loop_running in *. cbn [threads triggers]. rewrite Hr. cbn [rt].
  replace (<[f:=FutureRunning t]> (futures (rt s) ++ [FuturePending t]))
    with (futures (rt s) ++ [FutureRunning t]).
  - apply active_instances_future_begins.
  - unfold f. rewrite insert_app_r_alt by lia.
    now rewrite Nat.sub_diag.
Qed.

(** The run of the defect: interval 10, a tick at 0, the prompt left open,
    a tick at 10. *)
Lemma second_tick_overlaps_witness :
  let s1 := run [Tick (of_int 0); ThreadBegins 0%nat] (fresh 10 3) in
  let s2 := tick (of_int 10) s1 in
  threads (rt s2) = [ThreadRunning]
  /\ futures (rt s2) = [] ++ [FuturePending 0%nat]
  /\ _task (self s2) = Some 0%nat
  /\ active_instances (rt s2) = 1%nat
  /\ active_instances (rt (future_begins 0%nat s2)) = 2%nat.
Proof.
  refine (second_tick_overlaps (of_int 10)
            (run [Tick (of_int 0); ThreadBegins 0%nat] (fresh 10 3)) 0%nat
            _ _ _ _); reflexivity.
Defined.

End SchedulerFacts.

(** ** Pickling *)

Module PickleFacts.

Import Scheduler Pickle.

(** C8.  Before pickling the instance holds its seven attributes.  The
    state [__getstate__] returns has exactly the keys [interval],
    [info_timeout], [_last_challenge] and [_running], with the values of the
    attributes; [_loop_attr], [_task] and [_captcha_thread] are gone.  This
    holds of every task object, so of the one reached by any sequence of
    ticks, starts, stops and background steps. *)
Theorem getstate_keeps_four_fields (self : CaptchaTask) :
  dom (__dict__ self)
  = list_to_set
      ["interval"; "info_timeout"; "_last_challenge"; "_running";
       "_loop_attr"; "_task"; "_captcha_thread"]
  /\ dom (__getstate__ self)
     = list_to_set
         ["interval"; "info_timeout"; "_last_challenge"; "_running"]
  /\ __getstate__ self !! "interval" = Some (AInt (interval self))
  /\ __getstate__ self !! "info_timeout" = Some (AInt (info_timeout self))
  /\ __getstate__ self !! "_last_challenge"
     = Some (opt AFloat (_last_challenge self))
  /\ __getstate__ self !! "_running" = Some (ABool (_running self))
  /\ __getstate__ self !! "_loop_attr" = None
  /\ __getstate__ self !! "_task" = None
  /\ __getstate__ self !! "_captcha_thread" = None
  /\ (forall es interval info_timeout,
        dom (__getstate__
               (Scheduler.self (run es (fresh interval info_timeout))))
        = list_to_set
            ["interval"; "info_timeout"; "_last_challenge"; "_running"]).
Proof.
  assert (Hdom : forall o : CaptchaTask,
    dom (__getstate__ o)
    = list_to_set
        ["interval"; "info_timeout"; "_last_challenge"; "_running"]).
  { intros o. vm_compute. reflexivity. }
  split; [vm_compute; reflexivity|]. split; [apply Hdom|].
  do 7 (split; [vm_compute; reflexivity|]).
  intros es i t. apply Hdom.
Qed.

End PickleFacts.

(** ** Further properties of one run *)

Module RunFacts.

Import PyFloat Challenge Words ChallengeFacts.

Lemma append_assoc (a b c : string) : (a +:+ b) +:+ c = a +:+ b +:+ c.
Proof.
  induction a as [|x a IH]; [reflexivity|].
  change (String x ((a +:+ b) +:+ c) = String x (a +:+ b +:+ c)).
  now rewrite IH.
Qed.

Lemma append_nil_r (a : string) : a +:+ EmptyString = a.
Proof.
  induction a as [|x a IH]; [reflexivity|].
  change (String x (a +:+ EmptyString) = String x a).
  now rewrite IH.
Qed.

Lemma list_ascii_app (a b : string) :
  list_ascii_of_string (a +:+ b)
  = list_ascii_of_string a ++ list_ascii_of_string b.
Proof.
  induction a as [|x a IH]; [reflexivity|].
  change (x :: list_ascii_of_string (a +:+ b)
          = x :: (list_ascii_of_string a ++ list_ascii_of_string b)).
  now rewrite IH.
Qed.

Lemma append_cons c (a b : string) : String c a +:+ b = String c (a +:+ b).
Proof. reflexivity. Qed.

Lemma append_nil_l (b : string) : EmptyString +:+ b = b.
Proof. reflexivity. Qed.

(** Inside quotes, text without a quote is taken up to the closing quote. *)
Lemma shlex_go_quoted s cur rest :
  quote_free s = true ->
  shlex_go (s +:+ String "'"%char rest) true (Some cur)
  = shlex_go rest false (Some (cur +:+ s)).
Proof.
  revert cur. induction s as [|c s IH]; intros cur H.
  - rewrite append_nil_l, append_nil_r. reflexivity.
  - unfold quote_free in H. cbn [list_ascii_of_string forallb] in H.
    apply andb_prop in H as [Hc Hs].
    rewrite append_cons. cbn [shlex_go].
    apply negb_true_iff in Hc. rewrite Hc.
    rewrite (IH (cur +:+ String c EmptyString) Hs).
    now rewrite append_assoc.
Qed.

(** Outside quotes, the characters of a word extend the current word. *)
Lemma shlex_go_word s cur rest :
  is_word s = true ->
  shlex_go (s +:+ rest) false (Some cur)
  = shlex_go rest false (Some (cur +:+ s)).
Proof.
  revert cur. induction s as [|c s IH]; intros cur H.
  - rewrite append_nil_l, append_nil_r. reflexivity.
  - unfold is_word in H. cbn [list_ascii_of_string forallb] in H.
    apply andb_prop in H as [Hc Hs].
    unfold word_char in Hc. apply andb_prop in Hc as [Hq Hsp].
    apply negb_true_iff in Hq, Hsp.
    rewrite append_cons. cbn [shlex_go]. rewrite Hq, Hsp.
    rewrite (IH (cur +:+ String c EmptyString) Hs).
    now rewrite append_assoc.
Qed.

Lemma uint_is_word u : is_word (NilEmpty.string_of_uint u) = true.
Proof.
  unfold is_word.
  induction u; cbn [NilEmpty.string_of_uint list_ascii_of_string forallb];
    [reflexivity| rewrite IHu; reflexivity ..].
Qed.

Lemma str_is_word n : is_word (PyText.str n) = true.
Proof.
  unfold PyText.str, NilZero.string_of_int, NilZero.string_of_uint.
  destruct (Z.to_int n) as [u|u].
  - destruct u; try apply uint_is_word. reflexivity.
  - unfold is_word. cbn [list_ascii_of_string forallb].
    change (forallb word_char (list_ascii_of_string ?x)) with (is_word x).
    destruct u; try (rewrite uint_is_word; reflexivity). reflexivity.
Qed.

Lemma is_word_quote_free s : is_word s = true -> quote_free s = true.
Proof.
  unfold is_word, quote_free.
  induction (list_ascii_of_string s) as [|c l IH]; cbn; [reflexivity|].
  intros H. apply andb_prop in H as [Hc Hl].
  unfold word_char in Hc. apply andb_prop in Hc as [Hq _].
  now rewrite Hq, IH.
Qed.

Lemma quote_free_app a b :
  quote_free (a +:+ b) = quote_free a && quote_free b.
Proof. unfold quote_free. now rewrite list_ascii_app, forallb_app. Qed.

Lemma operator_quote_free r : quote_free (operator r) = true.
Proof.
  destruct (operator_cases r) as [[_ ->]|[_ ->]]; reflexivity.
Qed.

Lemma drawn_expression_quote_free w : quote_free (drawn_expression w) = true.
Proof.
  unfold drawn_expression, expression_of.
  rewrite !quote_free_app, operator_quote_free.
  rewrite !(is_word_quote_free _ (str_is_word _)). reflexivity.
Qed.

Lemma math_prefix (x : string) :
  shlex_go ("zenity --entry --title='Math Challenge' --text='Solve: " +:+ x)
    false None
  = ["zenity"; "--entry"; "--title=Math Challenge"]
    ++ shlex_go x true (Some "--text=Solve: ").
Proof. vm_compute. reflexivity. Qed.

Lemma math_argv expression :
  quote_free expression = true ->
  shlex_split (math_cmd expression)
  = ["zenity"; "--entry"; "--title=Math Challenge";
     "--text=Solve: " +:+ expression +:+ " = ?"].
Proof.
  intros H. unfold shlex_split, math_cmd. rewrite math_prefix.
  replace (expression +:+ " = ?'")
    with ((expression +:+ " = ?") +:+ String "'"%char EmptyString)
    by (rewrite append_assoc; reflexivity).
  rewrite shlex_go_quoted.
  - reflexivity.
  - rewrite quote_free_app, H. reflexivity.
Qed.

Lemma success_prefix (x : string) :
  shlex_go ("zenity --info --timeout=" +:+ x) false None
  = ["zenity"; "--info"] ++ shlex_go x false (Some "--timeout=").
Proof. vm_compute. reflexivity. Qed.

Lemma success_suffix (cur : string) :
  shlex_go " --text='Correct! Next challenge soon.'" false (Some cur)
  = [cur; "--text=Correct! Next challenge soon."].
Proof. vm_compute. reflexivity. Qed.

Lemma success_argv timeout :
  shlex_split (success_cmd timeout)
  = ["zenity"; "--info"; "--timeout=" +:+ PyText.str timeout;
     "--text=Correct! Next challenge soon."].
Proof.
  unfold shlex_split, success_cmd. rewrite success_prefix.
  rewrite shlex_go_word by apply str_is_word.
  rewrite success_suffix. reflexivity.
Qed.

(** X1.  Only a cancellation leaves a run.  The challenge returns
    normally whatever the dialog processes and the float conversion do,
    unless its task is cancelled while it waits for a dialog: then, and only
    then, [CancelledError] goes through the handlers and out of the
    coroutine.  That is the wait for the prompt, or the wait for the notice
    that follows an answer: the invalid-input notice when the output does
    not parse, the success or warning notice when an event was pushed. *)
Theorem only_cancellation_escapes
    (int_of_text : string -> option Z) (self : CaptchaTask) (w : World) :
  let r := fst (_captcha_challenge_coroutine int_of_text self w) in
  (r = Ok tt \/ r = Raise CancelledError)
  /\ (r = Raise CancelledError
      <-> procs w (procs_pos w) = ProcCancelled
          \/ (procs w (S (procs_pos w)) = ProcCancelled
              /\ exists stdout,
                   procs w (procs_pos w) = ProcExit 0 stdout
                   /\ (int_of_text stdout = None
                       \/ exists d,
                            EventStorePush d
                              ∈ effects_of (_captcha_challenge_coroutine
                                              int_of_text self) w))).
Proof.
  intros r. unfold r.
  destruct (coroutine_run int_of_text self w) as [-> Heff].
  rewrite Heff. unfold second_wait.
  destruct (procs w (procs_pos w)) as [|rc out|] eqn:Hp.
  - split; [now left|]. split; [discriminate|].
    intros [H|(_ & o & H & _)]; discriminate H.
  - destruct (Z.eqb_spec rc 0) as [->|Hrc]; cbn [negb].
    2:{ split; [now left|]. split; [discriminate|].
        intros [H|(_ & o & H & _)]; [discriminate H|congruence]. }
    destruct (int_of_text out) as [n|] eqn:Hn.
    2:{ destruct (procs w (S (procs_pos w))) eqn:Hp2.
        - split; [now left|]. split; [discriminate|].
          intros [H|(H & _)]; discriminate H.
        - split; [now left|]. split; [discriminate|].
          intros [H|(H & _)]; discriminate H.
        - split; [now right|]. split; [|reflexivity].
          intros _. right. split; [reflexivity|]. exists out. auto. }
    destruct (response_time_ms _ _) as [ms|] eqn:Hms.
    2:{ split; [now left|]. split; [discriminate|].
        intros [H|(_ & o & Ho & [Hnone|(d & Hd)])]; [discriminate H| |].
        - congruence.
        - rewrite !elem_of_cons in Hd.
          destruct Hd as [Hd|[Hd|Hd]]; [discriminate Hd|discriminate Hd|].
          now apply elem_of_nil in Hd. }
    destruct (procs w (S (procs_pos w))) eqn:Hp2.
    + split; [now left|]. split; [discriminate|].
      intros [H|(H & _)]; discriminate H.
    + split; [now left|]. split; [discriminate|].
      intros [H|(H & _)]; discriminate H.
    + split; [now right|]. split; [|reflexivity].
      intros _. right. split; [reflexivity|]. exists out.
      split; [reflexivity|]. right. eexists. apply elem_of_cons. right. left.
  - split; [now right|]. split; [|reflexivity]. intros _. now left.
Qed.

(** X2.  When the prompt's process cannot be run at all, the challenge ends
    as a cancellation does: the invocation of the prompt is all that
    happens; nothing is pushed, no notice is opened and nothing is
    printed. *)
Theorem process_failure_is_silent
    (int_of_text : string -> option Z) (self : CaptchaTask) (w : World) :
  procs w (procs_pos w) = ProcRaises ->
  effects_of (_captcha_challenge_coroutine int_of_text self) w
  = [prompt (drawn_expression w)].
Proof.
  intros Hp. destruct (coroutine_run int_of_text self w) as [_ ->].
  now rewrite Hp.
Qed.

Lemma process_failure_is_silent_witness :
  effects_of (_captcha_challenge_coroutine ascii_int (__init__ 10 3))
    (world [11; 7; 0]%nat [1000; 2500000] [ProcRaises] "alice")
  = [prompt "12 + 8"].
Proof.
  refine (process_failure_is_silent ascii_int (__init__ 10 3)
            (world [11; 7; 0]%nat [1000; 2500000] [ProcRaises] "alice") _).
  reflexivity.
Defined.

(** X3.  A submitted integer gives one event and one notice.  When the
    prompt exits with status 0, its output parses as [n] and the response
    time is an integer, the run does three things in this order: the
    prompt, the push of the event, whose [is_correct] is the comparison of
    [n] with the correct answer, and the success notice when they are
    equal, the warning notice when they differ. *)
Theorem answered_run
    (int_of_text : string -> option Z) (self : CaptchaTask) (w : World)
    (stdout : string) (n ms : Z) :
  procs w (procs_pos w) = ProcExit 0 stdout ->
  int_of_text stdout = Some n ->
  response_time_ms (clock w (clock_pos w)) (clock w (S (clock_pos w)))
  = Some ms ->
  exists d,
    effects_of (_captcha_challenge_coroutine int_of_text self) w
    = [prompt (drawn_expression w); EventStorePush d;
       if n =? drawn_answer w then success_notice self else warning_notice]
    /\ d !! "user_answer" = Some (VInt n)
    /\ d !! "correct_answer" = Some (VInt (drawn_answer w))
    /\ d !! "is_correct" = Some (VBool (n =? drawn_answer w))
    /\ d !! "response_time_ms" = Some (VInt ms)
    /\ (n = drawn_answer w ->
        last (effects_of (_captcha_challenge_coroutine int_of_text self) w)
        = Some (success_notice self))
    /\ (n <> drawn_answer w ->
        last (effects_of (_captcha_challenge_coroutine int_of_text self) w)
        = Some warning_notice).
Proof.
  intros Hp Hn Hms.
  destruct (coroutine_run int_of_text self w) as [_ Hrun].
  rewrite Hp, Hn, Hms in Hrun. cbn [negb Z.eqb] in Hrun.
  eexists. split; [exact Hrun|].
  pose proof (event_dict_fields (tracker_user w) (drawn_expression w) n
                (drawn_answer w) (n =? drawn_answer w)
                (clock w (clock_pos w)) (clock w (S (clock_pos w))) ms) as H.
  cbv zeta in H. destruct H as (?&?&?&?&?&?&?&?&?&?).
  repeat (split; [assumption|]). split.
  - intros ->. rewrite Hrun, Z.eqb_refl. reflexivity.
  - intros Hne. apply Z.eqb_neq in Hne. rewrite Hrun, Hne. reflexivity.
Qed.

Lemma answered_run_witness :
  exists d,
    effects_of (_captcha_challenge_coroutine ascii_int (__init__ 10 3))
      world_wrong
    = [prompt (drawn_expression world_wrong); EventStorePush d;
       if 20 =? drawn_answer world_wrong
       then success_notice (__init__ 10 3) else warning_notice]
    /\ d !! "user_answer" = Some (VInt 20)
    /\ d !! "correct_answer" = Some (VInt (drawn_answer world_wrong))
    /\ d !! "is_correct" = Some (VBool (20 =? drawn_answer world_wrong))
    /\ d !! "response_time_ms" = Some (VInt 2499)
    /\ (20 = drawn_answer world_wrong ->
        last (effects_of (_captcha_challenge_coroutine ascii_int
                            (__init__ 10 3)) world_wrong)
        = Some (success_notice (__init__ 10 3)))
    /\ (20 <> drawn_answer world_wrong ->
        last (effects_of (_captcha_challenge_coroutine ascii_int
                            (__init__ 10 3)) world_wrong)
        = Some warning_notice).
Proof.
  refine (answered_run ascii_int (__init__ 10 3) world_wrong "20" 20 2499
            _ _ _); vm_compute; reflexivity.
Defined.

(** X4.  The expression reaches the prompt as one word.  The generated
    text holds no quote, so the command line of every run splits into
    exactly four words, the last being the whole "Solve: a op b = ?". *)
Theorem prompt_words
    (int_of_text : string -> option Z) (self : CaptchaTask) (w : World) :
  quote_free (drawn_expression w) = true
  /\ exists rest,
       effects_of (_captcha_challenge_coroutine int_of_text self) w
       = Exec ["zenity"; "--entry"; "--title=Math Challenge";
               "--text=Solve: " +:+ drawn_expression w +:+ " = ?"]
         :: rest.
Proof.
  pose proof (drawn_expression_quote_free w) as Hq.
  split; [exact Hq|].
  destruct (coroutine_run int_of_text self w) as [_ ->].
  unfold prompt. rewrite (math_argv _ Hq).
  destruct (procs w (procs_pos w)) as [|rc out|];
    [now eexists| |now eexists].
  destruct (negb (rc =? 0)); [now eexists|].
  destruct (int_of_text out); [|now eexists].
  destruct (response_time_ms _ _); now eexists.
Qed.

(** X5.  The words of the two outcome notices.  Whatever integer
    [info_timeout] is, the success notice is [zenity --info] with the one
    word [--timeout=<info_timeout>] and its text; the warning notice has no
    timeout. *)
Theorem notice_words (self : CaptchaTask) :
  success_notice self
  = Exec ["zenity"; "--info";
          "--timeout=" +:+ PyText.str (info_timeout self);
          "--text=Correct! Next challenge soon."]
  /\ warning_notice = Exec ["zenity"; "--warning"; "--text=Incorrect! Try again."].
Proof.
  split.
  - unfold success_notice. now rewrite success_argv.
  - vm_compute. reflexivity.
Qed.

(** X6.  A run starts with the prompt and adds at most two more effects:
    at most one push to the event store and at most one further dialog. *)
Theorem run_shape
    (int_of_text : string -> option Z) (self : CaptchaTask) (w : World) :
  exists rest,
    effects_of (_captcha_challenge_coroutine int_of_text self) w
    = prompt (drawn_expression w) :: rest
    /\ (length rest <= 2)%nat
    /\ (length (List.filter is_push rest) <= 1)%nat
    /\ (length (List.filter is_dialog rest) <= 1)%nat.
Proof.
  destruct (coroutine_run int_of_text self w) as [_ ->].
  destruct (procs w (procs_pos w)) as [|rc out|].
  1, 3: exists []; split; [reflexivity|]; cbn; lia.
  destruct (negb (rc =? 0)).
  { exists []. split; [reflexivity|]. cbn. lia. }
  destruct (int_of_text out) as [n|].
  2:{ eexists. split; [reflexivity|]. cbn. lia. }
  destruct (response_time_ms _ _) as [ms|].
  2:{ eexists. split; [reflexivity|]. cbn. lia. }
  eexists. split; [reflexivity|].
  destruct (n =? drawn_answer w); cbn; lia.
Qed.

End RunFacts.

(** ** Further properties of the scheduler *)

Module DriverFacts.

Import PyFloat Scheduler Driver SchedulerFacts.

(** A float minus itself is never at least a positive integer: the
    difference is zero, or NaN for an infinity or NaN. *)
Lemma sub_self_below (x : float) (n : Z) :
  0 < n -> ge_int (sub x x) n = false.
Proof.
  intros Hn. unfold sub.
  destruct x as [s|s| |s m e]; cbn [SFsub].
  - destruct s; cbn [ge_int]; apply Z.leb_gt; lia.
  - destruct s; reflexivity.
  - reflexivity.
  - rewrite Z.sub_diag. cbn [binary_normalize ge_int]. apply Z.leb_gt; lia.
Qed.

Lemma sub_nan (x : float) : sub x S754_nan = S754_nan.
Proof. destruct x; reflexivity. Qed.

(** X7.  With a positive interval, a second tick at the same timestamp
    does nothing: at most one trigger per timestamp. *)
Theorem tick_same_time_idempotent (now : float) (s : System) :
  0 < interval (self s) ->
  tick now (tick now s) = tick now s.
Proof.
  intros Hi.
  assert (Hrest : forall s', due (self s') now = false -> tick now s' = s').
  { intros s' H. unfold tick. now rewrite H. }
  destruct (due (self s) now) eqn:Hd.
  - assert (Htick : tick now s
                    = _run_captcha_challenge_async
                        (with_self (set__last_challenge (Some now)) s)).
    { unfold tick. now rewrite Hd. }
    apply Hrest. rewrite Htick.
    destruct (trigger_counted (with_self (set__last_challenge (Some now)) s))
      as (_ & Hl & Hint & _).
    cbn [with_self self set__last_challenge _last_challenge interval]
      in Hl, Hint.
    unfold due. rewrite Hl, Hint. now apply sub_self_below.
  - rewrite (Hrest s Hd). exact (Hrest s Hd).
Qed.

Lemma tick_same_time_idempotent_witness :
  tick (of_int 7) (tick (of_int 7) (fresh 10 3)) = tick (of_int 7) (fresh 10 3).
Proof.
  refine (tick_same_time_idempotent (of_int 7) (fresh 10 3) _). reflexivity.
Defined.

(** X8.  A NaN timestamp disables the scheduler for good.  A first tick
    with NaN triggers and stores NaN in [_last_challenge]; after that the
    test of line 70 is false for every timestamp, so no sequence of ticks
    changes anything any more. *)
Theorem nan_tick_disables (s : System) (nows : list float) :
  _last_challenge (self s) = None ->
  _last_challenge (self (tick S754_nan s)) = Some S754_nan
  /\ triggers (rt (tick S754_nan s)) = S (triggers (rt s))
  /\ run (map Tick nows) (tick S754_nan s) = tick S754_nan s.
Proof.
  intros Hnone.
  destruct (trigger_counted
              (with_self (set__last_challenge (Some S754_nan)) s))
    as (Ht & Hl & _).
  cbn [with_self self rt set__last_challenge _last_challenge] in Ht, Hl.
  assert (Htick : tick S754_nan s
                  = _run_captcha_challenge_async
                      (with_self (set__last_challenge (Some S754_nan)) s)).
  { unfold tick, due. now rewrite Hnone. }
  rewrite Htick. split; [exact Hl|]. split; [exact Ht|].
  induction nows as [|now nows IH]; [reflexivity|].
  cbn [map run fold_left step]. unfold run in IH.
  unfold tick at 1, due. rewrite Hl, sub_nan. cbn [ge_int]. exact IH.
Qed.

Lemma nan_tick_disables_witness :
  _last_challenge (self (tick S754_nan (fresh 10 3))) = Some S754_nan
  /\ triggers (rt (tick S754_nan (fresh 10 3))) = S (triggers (rt (fresh 10 3)))
  /\ run (map Tick [of_int 100; of_int 200]) (tick S754_nan (fresh 10 3))
     = tick S754_nan (fresh 10 3).
Proof.
  refine (nan_tick_disables (fresh 10 3) [of_int 100; of_int 200] _).
  reflexivity.
Defined.

Lemma step_frame (e : event) (s : System) :
  interval (self (step e s)) = interval (self s)
  /\ info_timeout (self (step e s)) = info_timeout (self s)
  /\ _running (self (step e s))
     = match e with Start => true | Stop => false | _ => _running (self s) end.
Proof.
  destruct e as [now| | |t|t|f|f]; cbn [step].
  - unfold tick. destruct (due (self s) now); [|repeat split].
    unfold _run_captcha_challenge_async.
    cbn [with_self self rt]. unfold _loop.
    cbn [set__last_challenge _loop_attr _task].
    destruct (_loop_attr (self s)); [|repeat split].
    destruct (_task (self s)) as [f|]; [destruct (done (rt s) f)|];
      repeat split.
  - repeat split.
  - unfold stop. cbn [with_self self set__running _task].
    destruct (_task (self s)) as [f|]; [|repeat split].
    destruct (negb _); repeat split.
  - unfold thread_begins.
    destruct (threads (rt s) !! t) as [[]|]; repeat split.
  - unfold thread_ends.
    destruct (threads (rt s) !! t) as [[]|]; repeat split.
  - unfold future_begins.
    destruct (futures (rt s) !! f) as [[l|l| |]|]; try (repeat split; fail).
    destruct (loop_running (rt s) l); repeat split.
  - unfold future_ends.
    destruct (futures (rt s) !! f) as [[l|l| |]|]; try (repeat split; fail).
    destruct (loop_running (rt s) l); repeat split.
Qed.

(** X9.  Nothing changes the configuration, and only [start] and [stop]
    change the flag.  After any sequence of ticks, starts, stops and
    background steps, [interval] and [info_timeout] are what they were, and
    [_running] is what the last [start] or [stop] of the sequence made it,
    or what it was when there is none. *)
Theorem configuration_frame (es : list event) (s : System) :
  interval (self (run es s)) = interval (self s)
  /\ info_timeout (self (run es s)) = info_timeout (self s)
  /\ _running (self (run es s)) = running_after es (_running (self s)).
Proof.
  revert s. induction es as [|e es IH]; intros s; [repeat split|].
  unfold run, running_after in *. cbn [fold_left].
  destruct (IH (step e s)) as (Hi & Ht & Hr).
  destruct (step_frame e s) as (Hi' & Ht' & Hr').
  rewrite Hi, Ht, Hr, Hi', Ht', Hr'. repeat split.
Qed.

Lemma set__running_twice b o :
  set__running b (set__running b o) = set__running b o.
Proof. reflexivity. Qed.

Lemma stop_cases (s : System) :
  (stop s = with_self (set__running false) s
   /\ (_task (self s) = None
       \/ exists f, _task (self s) = Some f /\ done (rt s) f = true))
  \/ (exists f,
        _task (self s) = Some f
        /\ done (rt s) f = false
        /\ stop s
           = {| self := set__running false (self s);
                rt := {| threads := threads (rt s);
                         futures := <[f := FutureCancelled]> (futures (rt s));
                         triggers := triggers (rt s) |} |}).
Proof.
  unfold stop. cbn [with_self self rt set__running _task].
  destruct (_task (self s)) as [f|]; [|left; auto].
  destruct (done (rt s) f) eqn:Hd; cbn [negb].
  - left. split; [reflexivity|]. right. now exists f.
  - right. now exists f.
Qed.

(** X10.  What [stop] does and does not do.  It clears the flag, leaves
    every thread as it is (a challenge running in the background thread
    stays open), leaves the timer and the counters alone, and makes the
    future in [_task], when there is one, done; calling it twice is the
    same as calling it once. *)
Theorem stop_effects (s : System) :
  _running (self (stop s)) = false
  /\ threads (rt (stop s)) = threads (rt s)
  /\ triggers (rt (stop s)) = triggers (rt s)
  /\ _last_challenge (self (stop s)) = _last_challenge (self s)
  /\ _task (self (stop s)) = _task (self s)
  /\ (forall f, _task (self s) = Some f ->
                (f < length (futures (rt s)))%nat ->
                done (rt (stop s)) f = true)
  /\ (forall f g, _task (self s) = Some f -> g <> f ->
                  futures (rt (stop s)) !! g = futures (rt s) !! g)
  /\ stop (stop s) = stop s.
Proof.
  destruct (stop_cases s) as [(Hs & Hc)|(f & Ht & Hd & Hs)].
  - rewrite Hs. cbn [with_self self rt set__running _running _last_challenge
                      _task].
    do 5 (split; [reflexivity|]). split; [|split].
    + intros f Ht _. destruct Hc as [Hc|(f' & Hc & Hd)]; congruence.
    + reflexivity.
    + unfold stop. cbn [with_self self rt set__running _task].
      destruct Hc as [->|(f & -> & ->)]; reflexivity.
  - rewrite Hs. cbn [self rt set__running _running _last_challenge _task
                      threads futures triggers].
    do 5 (split; [reflexivity|]). split; [|split].
    + intros f' Ht' Hlt. assert (f' = f) as -> by congruence.
      unfold done. cbn [futures]. now rewrite list_lookup_insert_eq.
    + intros f' g Ht' Hg. assert (f' = f) as -> by congruence.
      now rewrite list_lookup_insert_ne.
    + unfold stop. cbn [with_self self rt set__running _task].
      rewrite Ht.
      destruct (negb (done _ f)) eqn:Hd2.
      * cbn [rt self threads futures triggers].
        now rewrite list_insert_insert_eq.
      * apply negb_false_iff in Hd2. unfold done in Hd, Hd2.
        cbn [futures] in Hd2.
        destruct (decide (f < length (futures (rt s)))%nat) as [Hlt|Hge].
        -- reflexivity.
        -- rewrite list_insert_ge in Hd2 by lia. congruence.
Qed.

(** X11.  A suppressed trigger is lost and restarts the timer.  With a
    loop in [_loop] and an unfinished future in [_task], a due tick counts
    as a trigger and stores [now] in [_last_challenge], but creates no
    thread and no future. *)
Theorem suppressed_tick_restarts_timer
    (now : float) (s : System) (loop : loop_id) (f : future_id) :
  _loop (self s) = Some loop ->
  _task (self s) = Some f ->
  done (rt s) f = false ->
  due (self s) now = true ->
  _last_challenge (self (tick now s)) = Some now
  /\ triggers (rt (tick now s)) = S (triggers (rt s))
  /\ threads (rt (tick now s)) = threads (rt s)
  /\ futures (rt (tick now s)) = futures (rt s)
  /\ _task (self (tick now s)) = Some f.
Proof.
  intros Hl Ht Hd Hdue. unfold tick. rewrite Hdue.
  unfold _run_captcha_challenge_async. cbn [with_self self rt].
  unfold _loop in *. cbn [set__last_challenge _loop_attr _task].
  rewrite Hl, Ht, Hd. repeat split. exact Ht.
Qed.

Lemma suppressed_tick_restarts_timer_witness :
  let s := run [Tick (of_int 0); ThreadBegins 0%nat; Tick (of_int 10)]
             (fresh 10 3) in
  _last_challenge (self (tick (of_int 20) s)) = Some (of_int 20)
  /\ triggers (rt (tick (of_int 20) s)) = S (triggers (rt s))
  /\ threads (rt (tick (of_int 20) s)) = threads (rt s)
  /\ futures (rt (tick (of_int 20) s)) = futures (rt s)
  /\ _task (self (tick (of_int 20) s)) = Some 0%nat.
Proof.
  refine (suppressed_tick_restarts_timer (of_int 20)
            (run [Tick (of_int 0); ThreadBegins 0%nat; Tick (of_int 10)]
               (fresh 10 3)) 0%nat 0%nat _ _ _ _); reflexivity.
Defined.

Lemma tick_when_due (now : float) (s : System) :
  due (self s) now = true ->
  tick now s
  = _run_captcha_challenge_async
      (with_self (set__last_challenge (Some now)) s).
Proof. intros H. unfold tick. now rewrite H. Qed.

Lemma trigger_without_loop (s : System) :
  _loop (self s) = None ->
  _run_captcha_challenge_async s
  = {| self := set__captcha_thread (Some (length (threads (rt s)))) (self s);
       rt := {| threads := threads (rt s) ++ [ThreadStarted];
                futures := futures (rt s);
                triggers := S (triggers (rt s)) |} |}.
Proof. intros H. unfold _run_captcha_challenge_async. now rewrite H. Qed.

(** X12.  Two triggers before the first thread has stored its loop start
    two threads.  With [_loop] still [None], each due tick creates a thread
    of its own; both are alive, and [_captcha_thread] keeps only the handle
    of the second. *)
Theorem early_ticks_start_two_threads (now1 now2 : float) (s : System) :
  _loop (self s) = None ->
  due (self s) now1 = true ->
  ge_int (sub now2 now1) (interval (self s)) = true ->
  let s2 := tick now2 (tick now1 s) in
  let t := length (threads (rt s)) in
  threads (rt s2) = threads (rt s) ++ [ThreadStarted; ThreadStarted]
  /\ is_alive (rt s2) t = true
  /\ is_alive (rt s2) (S t) = true
  /\ _captcha_thread (self s2) = Some (S t)
  /\ futures (rt s2) = futures (rt s).
Proof.
  intros Hl Hd1 Hd2 s2 t.
  assert (Hs2 :
    s2 = {| self := set__captcha_thread (Some (S t))
                      (set__last_challenge (Some now2)
                         (set__captcha_thread (Some t)
                            (set__last_challenge (Some now1) (self s))));
            rt := {| threads := (threads (rt s) ++ [ThreadStarted])
                                ++ [ThreadStarted];
                     futures := futures (rt s);
                     triggers := S (S (triggers (rt s))) |} |}).
  { unfold s2. rewrite (tick_when_due now1 s Hd1).
    rewrite trigger_without_loop by exact Hl.
    cbn [with_self self rt threads futures triggers].
    rewrite tick_when_due by exact Hd2.
    rewrite trigger_without_loop by exact Hl.
    cbn [with_self self rt threads futures triggers].
    rewrite length_app. cbn [length].
    replace (length (threads (rt s)) + 1)%nat with (S t) by (unfold t; lia).
    reflexivity. }
  rewrite Hs2. cbn [rt self threads futures set__captcha_thread
                     _captcha_thread].
  rewrite <- app_assoc. cbn [app].
  split; [reflexivity|]. unfold is_alive. cbn [threads].
  unfold thread_id in *.
  assert (H0 : (threads (rt s) ++ [ThreadStarted; ThreadStarted]) !! t
               = Some ThreadStarted)
    by (apply list_lookup_middle; reflexivity).
  assert (H1 : (threads (rt s) ++ [ThreadStarted; ThreadStarted]) !! S t
               = Some ThreadStarted).
  { rewrite lookup_app_r by (unfold t; lia).
    replace (S t - length (threads (rt s)))%nat with 1%nat by (unfold t; lia).
    reflexivity. }
  rewrite H0, H1. repeat split.
Qed.

Lemma early_ticks_start_two_threads_witness :
  let s2 := tick (of_int 10) (tick (of_int 0) (fresh 10 3)) in
  threads (rt s2) = [] ++ [ThreadStarted; ThreadStarted]
  /\ is_alive (rt s2) 0%nat = true
  /\ is_alive (rt s2) 1%nat = true
  /\ _captcha_thread (self s2) = Some 1%nat
  /\ futures (rt s2) = [].
Proof.
  refine (early_ticks_start_two_threads (of_int 0) (of_int 10) (fresh 10 3)
            _ _ _); reflexivity.
Defined.

End DriverFacts.

(** ** Further properties of pickling *)

Module RestoredFacts.

Import Scheduler Pickle.

Lemma getstate_lookups (o : CaptchaTask) :
  __getstate__ o !! "interval" = Some (AInt (interval o))
  /\ __getstate__ o !! "info_timeout" = Some (AInt (info_timeout o))
  /\ __getstate__ o !! "_last_challenge"
     = Some (opt AFloat (_last_challenge o))
  /\ __getstate__ o !! "_running" = Some (ABool (_running o)).
Proof. repeat split; vm_compute; reflexivity. Qed.

Lemma getstate_eq (o : CaptchaTask) :
  __getstate__ o
  = list_to_map
      [ ("interval", AInt (interval o));
        ("info_timeout", AInt (info_timeout o));
        ("_last_challenge", opt AFloat (_last_challenge o));
        ("_running", ABool (_running o)) ].
Proof. destruct o as [i t l b lp k th]. vm_compute. reflexivity. Qed.

(** X13.  The pickled state is a function of the four kept attributes and
    of nothing else: two task objects have the same state exactly when
    they agree on [interval], [info_timeout], [_last_challenge] and
    [_running], whatever loop, future and thread they hold. *)
Theorem getstate_ignores_handles (a b : CaptchaTask) :
  __getstate__ a = __getstate__ b
  <-> interval a = interval b
      /\ info_timeout a = info_timeout b
      /\ _last_challenge a = _last_challenge b
      /\ _running a = _running b.
Proof.
  split.
  - intros H.
    destruct (getstate_lookups a) as (Ha1 & Ha2 & Ha3 & Ha4).
    destruct (getstate_lookups b) as (Hb1 & Hb2 & Hb3 & Hb4).
    rewrite H in Ha1, Ha2, Ha3, Ha4.
    split; [congruence|]. split; [congruence|]. split; [|congruence].
    assert (Ho : opt AFloat (_last_challenge a)
                 = opt AFloat (_last_challenge b)) by congruence.
    destruct (_last_challenge a), (_last_challenge b); cbn in Ho;
      congruence.
  - intros (Hi & Ht & Hl & Hr).
    now rewrite !getstate_eq, Hi, Ht, Hl, Hr.
Qed.

Lemma dict_lookups (o : CaptchaTask) :
  __dict__ o !! "_loop_attr" = Some (opt ALoop (_loop_attr o))
  /\ __dict__ o !! "_task" = Some (opt AFuture (_task o))
  /\ __dict__ o !! "_captcha_thread" = Some (opt AThread (_captcha_thread o)).
Proof. repeat split; vm_compute; reflexivity. Qed.

Lemma dict_set_running (b : bool) (o : CaptchaTask) :
  <["_running" := ABool b]> (__dict__ o) = __dict__ (set__running b o).
Proof. destruct o as [i t l b0 lp k th]. vm_compute. reflexivity. Qed.

Lemma getstate_missing (o : CaptchaTask) :
  __getstate__ o !! "_loop_attr" = None
  /\ __getstate__ o !! "_task" = None.
Proof. split; vm_compute; reflexivity. Qed.

(** X14.  An instance rebuilt from its pickled state cannot be stopped.
    Its [_loop] property reads [None], because the getter supplies a
    default, and [start] works; but [stop] clears [_running] and then fails
    on the missing attribute [_task], leaving the run time untouched. *)
Theorem restored_stop_fails (o : CaptchaTask) (r : Runtime) :
  Restored._loop_getter (__getstate__ o) = ANone
  /\ Restored._loop_getter (__dict__ o) = opt ALoop (_loop o)
  /\ __getstate__ o !! "_task" = None
  /\ Restored.start (__getstate__ o) !! "_running" = Some (ABool true)
  /\ Restored.stop (__getstate__ o) r
     = (<["_running" := ABool false]> (__getstate__ o), r, Some "_task").
Proof.
  destruct (getstate_missing o) as (Hl & Ht).
  destruct (dict_lookups o) as (Hdl & _).
  unfold Restored._loop_getter, Restored.start, Restored.stop.
  rewrite Hl, Hdl, lookup_insert_eq.
  rewrite lookup_insert_ne by discriminate. rewrite Ht.
  repeat split.
Qed.

(** X15.  On a complete instance the dictionary reading of [stop] and the
    one on the task record agree: the dictionary left is that of the
    stopped task, the run time is the same, and nothing is raised. *)
Theorem stop_on_dictionary (s : System) :
  Restored.stop (__dict__ (self s)) (rt s)
  = (__dict__ (self (stop s)), rt (stop s), None).
Proof.
  unfold Restored.stop. rewrite dict_set_running.
  destruct (dict_lookups (set__running false (self s))) as (_ & Ht & Hth).
  rewrite Ht, Hth. cbn [set__running _task].
  unfold stop. cbn [with_self self rt set__running _task].
  destruct (_task (self s)) as [f|]; cbn [opt]; [|reflexivity].
  destruct (done (rt s) f); reflexivity.
Qed.

End RestoredFacts.
